(** * YTDOWNLOAD: a shallow embedding of [main.py]

    The bot keeps three pieces of process-wide state: the JSON configuration
    file with its in-memory [DEFAULT_CONFIG] dictionary, the [user_sessions]
    table, and one [ProgressHook] object per download.  Each handler of
    [main.py] is embedded as a function on that state which also returns the
    calls it makes to the chat platform.  Everything the handlers cannot
    decide themselves (the clock, the file system, the download library, the
    outcome of a network call) is an explicit argument.

    A Python [str] is the byte string of its UTF-8 encoding, the literals
    byte for byte as the source file has them; timestamps of [time.time()]
    are rationals.  Built-ins whose result depends on the interpreter or the
    machine ([float], [int], the memory for [s * n]) are parameters, each
    with a reference implementation for running the definitions. *)

From Stdlib Require Import ZArith QArith Qabs Qround Lqa String Ascii List Sorted.
From stdpp Require Import base option gmap strings list pretty.

Set Warnings "-register-all".
Local Open Scope Z_scope.

(** ** Python [str] methods used by [main.py] *)

Module PyStr.

Definition nl : string := String (ascii_of_nat 10) EmptyString.

(** The text made of the given bytes. *)
Definition bytes (codes : list nat) : string :=
  fold_right (fun n s => String (ascii_of_nat n) s) EmptyString codes.

(** The characters for which [str.isspace] holds, each in UTF-8:
    U+0009..U+000D, U+001C..U+001F, U+0020, U+0085, U+00A0, U+1680,
    U+2000..U+200A, U+2028, U+2029, U+202F, U+205F and U+3000. *)
Definition whitespace : list string :=
  map bytes
    [[9]; [10]; [11]; [12]; [13]; [28]; [29]; [30]; [31]; [32];
     [194; 133]; [194; 160]; [225; 154; 128];
     [226; 128; 128]; [226; 128; 129]; [226; 128; 130]; [226; 128; 131];
     [226; 128; 132]; [226; 128; 133]; [226; 128; 134]; [226; 128; 135];
     [226; 128; 136]; [226; 128; 137]; [226; 128; 138];
     [226; 128; 168]; [226; 128; 169]; [226; 128; 175]; [226; 129; 159];
     [227; 128; 128]]%nat.

Fixpoint rev_onto (s acc : string) : string :=
  match s with
  | EmptyString => acc
  | String c s' => rev_onto s' (String c acc)
  end.

Definition rev (s : string) : string := rev_onto s EmptyString.

(** [s] without the prefix [p], when [s] starts with [p]. *)
Fixpoint drop_prefix (p s : string) : option string :=
  match p, s with
  | EmptyString, _ => Some s
  | String a p', String b s' => if ascii_dec a b then drop_prefix p' s' else None
  | String _ _, EmptyString => None
  end.

(** [s] without the first text of [table] that it starts with. *)
Fixpoint drop_first (table : list string) (s : string) : option string :=
  match table with
  | [] => None
  | w :: rest =>
      match drop_prefix w s with
      | Some s' => Some s'
      | None => drop_first rest s
      end
  end.

(** Texts of [table] taken from the front of [s], at most [n] of them. *)
Fixpoint drop_leading (table : list string) (n : nat) (s : string) : string :=
  match n with
  | O => s
  | S n' =>
      match drop_first table s with
      | Some s' => drop_leading table n' s'
      | None => s
      end
  end.

(** [s.lstrip()]: a text has no more characters than bytes, so the bound
    is never met. *)
Definition lstrip (s : string) : string :=
  drop_leading whitespace (String.length s) s.

(** [s.rstrip()]: the encodings are read backwards from the end. *)
Definition rstrip (s : string) : string :=
  rev (drop_leading (map rev whitespace) (String.length s) (rev s)).

(** [s.strip()] *)
Definition strip (s : string) : string := rstrip (lstrip s).

(** No white space anywhere in [s], as for the words that [str.split()]
    produces. *)
Fixpoint no_space (s : string) : bool :=
  match s with
  | EmptyString => true
  | String c s' =>
      match drop_first whitespace (String c s') with
      | Some _ => false
      | None => no_space s'
      end
  end.

(** [s.startswith(p)] *)
Fixpoint startswith (p s : string) : bool :=
  match p, s with
  | EmptyString, _ => true
  | String a p', String b s' => if ascii_dec a b then startswith p' s' else false
  | String _ _, EmptyString => false
  end.

(** [s.endswith(p)] *)
Definition endswith (p s : string) : bool := startswith (rev p) (rev s).

(** [sub in s] *)
Fixpoint contains (sub s : string) : bool :=
  startswith sub s ||
  match s with
  | EmptyString => false
  | String _ s' => contains sub s'
  end.

(** [s.replace(old, new)] for a one-character [old]. *)
Fixpoint replace (old : ascii) (new s : string) : string :=
  match s with
  | EmptyString => EmptyString
  | String c s' =>
      if ascii_dec c old then new +:+ replace old new s'
      else String c (replace old new s')
  end.

(** [s.split(sep)] for a one-character [sep]; the result is never empty. *)
Fixpoint split (sep : ascii) (s : string) : list string :=
  match s with
  | EmptyString => [EmptyString]
  | String c s' =>
      if ascii_dec c sep then EmptyString :: split sep s'
      else match split sep s' with
           | h :: t => String c h :: t
           | [] => [String c EmptyString]
           end
  end.

(** The text of [s] before its last [sep], when [sep] occurs in [s]. *)
Fixpoint before_last (sep : ascii) (s : string) : option string :=
  match s with
  | EmptyString => None
  | String c s' =>
      match before_last sep s' with
      | Some h => Some (String c h)
      | None => if ascii_dec c sep then Some EmptyString else None
      end
  end.

(** [s.rsplit(sep, 1)[0]] for a one-character [sep]. *)
Definition rsplit1_head (sep : ascii) (s : string) : string :=
  match before_last sep s with
  | Some h => h
  | None => s
  end.

Fixpoint repeat (s : string) (n : nat) : string :=
  match n with
  | O => EmptyString
  | S n' => s +:+ repeat s n'
  end.

(** Whether the text [s * n] can be built: the count [n] fits an index and
    there is memory for the result.  Where it cannot, [s * n] raises
    [OverflowError] or [MemoryError]. *)
Class PyMemory : Type := {
  fits : string -> Z -> bool
}.

(** [s * n]: a count below one gives the empty string; [None] stands for the
    exception raised. *)
Definition mul `{PyMemory} (s : string) (n : Z) : option string :=
  if fits s n then Some (repeat s (Z.to_nat n)) else None.

End PyStr.

(** ** Exceptions

    The handlers only tell three classes of exception apart:
    [yt_dlp.DownloadError], any other subclass of [Exception], and the
    exceptions outside [Exception] ([asyncio.CancelledError],
    [KeyboardInterrupt], ...) which no [except Exception] clause catches. *)

Module PyExn.

Inductive exn_class : Type :=
  | DownloadError
  | OtherException
  | NonException.

(** [msg] is [str(e)]. *)
Record exn : Type := Exn { cls : exn_class; msg : string }.

Inductive result (A : Type) : Type :=
  | Ok (a : A)
  | Raise (e : exn).

Arguments Ok {A} a.
Arguments Raise {A} e.

(** How a call of a handler ends. *)
Inductive completion : Type :=
  | Returned
  | Propagated (e : exn).

(** [except Exception] catches [e]. *)
Definition is_Exception (e : exn) : bool :=
  match cls e with
  | NonException => false
  | _ => true
  end.

End PyExn.

Import PyExn.

(** ** Configuration store: [load_config] and [save_config] *)

Module Config.

(** What [json.load] can return.  Numbers are kept as integers. *)
Inductive json : Type :=
  | JNull
  | JBool (b : bool)
  | JInt (n : Z)
  | JStr (s : string)
  | JArr (l : list json)
  | JObj (m : gmap string json).

(** The state of [CONFIG_FILE] as [load_config] sees it. *)
Inductive file_state : Type :=
  | Missing                 (* [os.path.exists(CONFIG_FILE)] is false *)
  | Unreadable              (* [open] or [json.load] raises *)
  | Holds (v : json).       (* [json.load] returns [v] *)

(** The file together with the module-level dictionary [DEFAULT_CONFIG],
    which is a mutable object shared by every caller of [load_config]. *)
Record store : Type := Store {
  config_file : file_state;
  DEFAULT_CONFIG : gmap string json
}.

(** The object a caller of [load_config] holds: the shared [DEFAULT_CONFIG]
    itself, or a value freshly built by [json.load]. *)
Inductive config_ref : Type :=
  | TheDefault
  | Loaded (v : json).

Definition deref (st : store) (r : config_ref) : json :=
  match r with
  | TheDefault => JObj (DEFAULT_CONFIG st)
  | Loaded v => v
  end.

(** How the write inside [save_config] goes. *)
Inductive write_outcome : Type :=
  | Written                 (* [json.dump] completes *)
  | OpenFailed              (* [open(CONFIG_FILE, 'w')] raises *)
  | DumpFailed.             (* the file was truncated, then the write raised *)

Definition is_str (k : string) (v : json) : bool :=
  match v with
  | JStr s => bool_decide (s = k)
  | _ => false
  end.

(** [key in config]; [None] is the [TypeError] of a value that is no
    container. *)
Definition py_in (key : string) (config : json) : option bool :=
  match config with
  | JObj m => Some (bool_decide (is_Some (m !! key)))
  | JArr l => Some (existsb (is_str key) l)
  | JStr s => Some (PyStr.contains key s)
  | JNull | JBool _ | JInt _ => None
  end.

(** [config[key] = value] with a string key; only a dictionary accepts it. *)
Definition py_setitem (key : string) (value : json) (config : json) : option json :=
  match config with
  | JObj m => Some (JObj (<[key := value]> m))
  | _ => None
  end.

(** [type(v).__name__] *)
Definition type_name (v : json) : string :=
  match v with
  | JNull => "NoneType"
  | JBool _ => "bool"
  | JInt _ => "int"
  | JStr _ => "str"
  | JArr _ => "list"
  | JObj _ => "dict"
  end.

(** The [TypeError] of [config[key] = value] on a value that is no
    dictionary. *)
Definition setitem_error (v : json) : exn :=
  Exn OtherException
    match v with
    | JArr _ => "list indices must be integers or slices, not str"
    | _ => "'" +:+ type_name v +:+ "' object does not support item assignment"
    end.

(** The [AttributeError] of [config.get] on a value that is no dictionary. *)
Definition get_error (v : json) : exn :=
  Exn OtherException ("'" +:+ type_name v +:+ "' object has no attribute 'get'").

(** The loop [for key, value in DEFAULT_CONFIG.items()] of [load_config];
    [None] when an exception leaves the [try] block. *)
Fixpoint backfill (items : list (string * json)) (config : json) : option json :=
  match items with
  | [] => Some config
  | (key, value) :: rest =>
      match py_in key config with
      | None => None
      | Some true => backfill rest config
      | Some false =>
          match py_setitem key value config with
          | Some config' => backfill rest config'
          | None => None
          end
      end
  end.

Definition save_config (w : write_outcome) (config : json) (st : store) : store :=
  match w with
  | Written => Store (Holds config) (DEFAULT_CONFIG st)
  | OpenFailed => st
  | DumpFailed => Store Unreadable (DEFAULT_CONFIG st)
  end.

(** [w] is the outcome of the write that creates a missing file. *)
Definition load_config (w : write_outcome) (st : store) : config_ref * store :=
  match config_file st with
  | Holds v =>
      match backfill (map_to_list (DEFAULT_CONFIG st)) v with
      | Some config => (Loaded config, st)
      | None => (TheDefault, st)
      end
  | Unreadable => (TheDefault, st)
  | Missing => (TheDefault, save_config w (deref st TheDefault) st)
  end.

(** The store of a process that has just been started with the environment
    variable [REQUIRED_CHANNEL]. *)
Definition fresh_store (REQUIRED_CHANNEL : string) (f : file_state) : store :=
  Store f {["required_channel" := JStr REQUIRED_CHANNEL]}.

End Config.

(** ** Calls to the chat platform *)

Module Chat.

Inductive action : Type :=
  | ReplyText (text : string)                            (* [update.message.reply_text] *)
  | ReplyKeyboard (text : string) (buttons : list (string * string))
  | AnswerQuery                                          (* [query.answer] *)
  | EditQueryText (text : string)                        (* [query.edit_message_text] *)
  | SendMessage (chat_id : Z) (text : string)
  | EditMessageText (chat_id message_id : Z) (text : string)
  | SendAudio (chat_id : Z) (path title : string)
  | SendVideo (chat_id : Z) (path caption : string)
  | SendDocument (chat_id : Z) (path caption : string)
  | CreateTask (user_id : Z) (url format_key : string).  (* [asyncio.create_task(process_download ...)] *)

(** The calls that upload the downloaded file. *)
Definition is_file_send (a : action) : bool :=
  match a with
  | SendAudio _ _ _ | SendVideo _ _ _ | SendDocument _ _ _ => true
  | _ => false
  end.

Definition is_create_task (a : action) : bool :=
  match a with
  | CreateTask _ _ _ => true
  | _ => false
  end.

(** The outcome of each awaited call, as the platform decides it. *)
Definition platform : Type := action -> result unit.

(** A handler whose last statement is the awaited call [a]. *)
Definition finish (api : platform) (a : action) : completion :=
  match api a with
  | Ok _ => Returned
  | Raise e => Propagated e
  end.

End Chat.

Import Chat.

(** ** Progress reporter: class [ProgressHook]

    [__call__] is a coroutine; the function below is its body run to completion
    on one event. *)

Module Progress.

(** The built-ins [float(s)], [x // n] and [int(x)] of the [try] block that
    draws the bar.  [None] stands for the exception the built-in raises. *)
Class PyFloat : Type := {
  pyfloat : Type;
  float_of_str : string -> option pyfloat;
  floordiv : pyfloat -> Z -> option pyfloat;
  int_of_float : pyfloat -> option Z
}.

(** The dictionary [d] handed to the hook; an absent key is [None] and the
    values present are strings. *)
Record event : Type := Event {
  status : string;
  _percent_str : option string;
  _speed_str : option string;
  _eta_str : option string
}.

Record ProgressHook : Type := Hook {
  user_id : Z;
  last_update : Q;
  message_id : option Z;
  last_progress_text : string
}.

(** [ProgressHook.__init__] *)
Definition __init__ (user_id : Z) : ProgressHook := Hook user_id 0 None "".

Section Render.
Context `{PyFloat} `{PyStr.PyMemory}.

(** The body of the [try] block; [None] when any statement of it raises. *)
Definition bar_text (percent speed eta : string) : option string :=
  percent_float ← float_of_str (PyStr.replace "%" "" percent);
  quotient ← floordiv percent_float 5;
  filled_blocks ← int_of_float quotient;
  filled ← PyStr.mul "â–ˆ" filled_blocks;
  empty ← PyStr.mul "â–‘" (20 - filled_blocks);
  let progress_bar := filled +:+ empty in
  Some ("ðŸ“¥ Downloading: [" +:+ progress_bar +:+ "] " +:+ percent +:+ PyStr.nl
        +:+ "âš¡ Speed: " +:+ speed +:+ PyStr.nl +:+ "â± ETA: " +:+ eta).

(** The text of the bare [except:] branch. *)
Definition fallback_text (percent speed eta : string) : string :=
  "ðŸ“¥ Downloading..." +:+ PyStr.nl +:+ "ðŸ“Š Progress: " +:+ percent +:+ PyStr.nl
  +:+ "âš¡ Speed: " +:+ speed +:+ PyStr.nl +:+ "â± ETA: " +:+ eta.

Definition progress_text (percent speed eta : string) : string :=
  match bar_text percent speed eta with
  | Some text => text
  | None => fallback_text percent speed eta
  end.

Definition render (d : event) : string :=
  progress_text (default "0%" (_percent_str d))
           (default "N/A" (_speed_str d))
           (default "N/A" (_eta_str d)).

(** The [try] ... [except Exception] around a send or an edit. *)
Definition swallow (r : result Z) : completion :=
  match r with
  | Ok _ => Returned
  | Raise e => if is_Exception e then Returned else Propagated e
  end.

(** [ProgressHook.__call__(d)].  [current_time] is what [time.time()]
    returns during the call and [api] is the outcome of the one call to the
    platform the hook may make (the identifier of the message sent, or the
    exception raised). *)
Definition __call__ (h : ProgressHook) (d : event) (current_time : Q) (api : result Z)
  : ProgressHook * list action * completion :=
  if decide (status d = "downloading") then
    if Qlt_le_dec (current_time - last_update h) 2 then (h, [], Returned)
    else
      let progress_text := render d in
      if decide (progress_text <> last_progress_text h) then
        match message_id h with
        | None =>
            let sent := match api with Ok m => Some m | Raise _ => None end in
            (Hook (user_id h) current_time sent progress_text,
             [SendMessage (user_id h) progress_text], swallow api)
        | Some m =>
            (Hook (user_id h) current_time (Some m) progress_text,
             [EditMessageText (user_id h) m progress_text], swallow api)
        end
      else
        (Hook (user_id h) current_time (message_id h) (last_progress_text h), [], Returned)
  else if decide (status d = "finished") then
    match message_id h with
    | Some m =>
        if decide (m = 0) then (h, [], Returned)
        else (h, [EditMessageText (user_id h) m "âœ… Download complete! Processing file..."],
              swallow api)
    | None => (h, [], Returned)
    end
  else (h, [], Returned).

(** One delivery of an event to the hook. *)
Record delivery : Type := Delivery {
  dl_event : event;
  dl_time : Q;
  dl_api : result Z
}.

(** The hook fed with a sequence of deliveries: its final state and the
    calls it made to the platform, each with the clock value of the delivery
    that made it.  The hook object lives on whatever way a call ends. *)
Fixpoint run (h : ProgressHook) (ds : list delivery) : ProgressHook * list (Q * action) :=
  match ds with
  | [] => (h, [])
  | d :: rest =>
      let '(h', acts, _) := __call__ h (dl_event d) (dl_time d) (dl_api d) in
      let '(h'', log) := run h' rest in
      (h'', map (pair (dl_time d)) acts ++ log)
  end.

End Render.

Definition text_of (a : action) : string :=
  match a with
  | ReplyText t | ReplyKeyboard t _ | EditQueryText t | SendMessage _ t
  | EditMessageText _ _ t => t
  | SendAudio _ _ t | SendVideo _ _ t | SendDocument _ _ t => t
  | AnswerQuery => ""
  | CreateTask _ _ _ => ""
  end.

(** Two entries of a log: the second is made two seconds or more after the
    first; the second carries another text than the first. *)
Definition spaced (a b : Q * action) : Prop := (a.1 + 2 <= b.1)%Q.

Definition text_changes (a b : Q * action) : Prop := text_of a.2 <> text_of b.2.

End Progress.

(** ** Reference implementations of the built-ins

    The statements about the hook hold for every instance of [PyFloat] and
    of [PyStr.PyMemory]; the instances below serve to run the hook on
    concrete events.

    [float(s)] follows the grammar of the language reference on text whose
    digits are ASCII, and rounds the number written to the nearest binary64
    value, ties to even; [x // n] follows [float_divmod] of CPython with
    every operation rounded.  A finite float is kept as the rational it is
    equal to, so a negative zero is not told from zero. *)

Module DecimalFloat.

Inductive value : Type :=
  | Finite (q : Q)
  | Inf (negative : bool)
  | NaN.

Definition digit_of (c : ascii) : option Z :=
  let n := nat_of_ascii c in
  if ((48 <=? n)%nat && (n <=? 57)%nat)%bool then Some (Z.of_nat n - 48) else None.

(** [digitpart ::= digit (["_"] digit)*]: the digits of the longest such
    prefix of [s], and what follows it. *)
Fixpoint read_digits (s : string) : list Z * string :=
  match s with
  | EmptyString => ([], s)
  | String c s' =>
      match digit_of c with
      | None => ([], s)
      | Some d =>
          let '(ds, rest) :=
            match s' with
            | String u t =>
                if ascii_dec u "_" then
                  match t with
                  | String c2 _ =>
                      match digit_of c2 with
                      | Some _ => read_digits t
                      | None => ([], s')
                      end
                  | EmptyString => ([], s')
                  end
                else read_digits s'
            | EmptyString => ([], s')
            end in
          (d :: ds, rest)
      end
  end.

Definition digits_value (ds : list Z) : Z :=
  fold_left (fun acc d => 10 * acc + d) ds 0.

(** [[sign]]: whether a minus sign was read, and what follows. *)
Definition read_sign (s : string) : bool * string :=
  match s with
  | String c s' =>
      if ascii_dec c "-" then (true, s')
      else if ascii_dec c "+" then (false, s')
      else (false, s)
  | EmptyString => (false, s)
  end.

Definition lower (c : ascii) : ascii :=
  let n := nat_of_ascii c in
  if ((65 <=? n)%nat && (n <=? 90)%nat)%bool then ascii_of_nat (n + 32) else c.

Fixpoint lowercase (s : string) : string :=
  match s with
  | EmptyString => EmptyString
  | String c s' => String (lower c) (lowercase s')
  end.

(** [exponent ::= ("e" | "E") [sign] digitpart], or nothing. *)
Definition read_exponent (s : string) : option (Z * string) :=
  match s with
  | String c s' =>
      if bool_decide (lower c = "e"%char) then
        let '(neg, s1) := read_sign s' in
        match read_digits s1 with
        | ([], _) => None
        | (ds, rest) => Some (if neg then - digits_value ds else digits_value ds, rest)
        end
      else Some (0, s)
  | EmptyString => Some (0, s)
  end.

(** [m * 10 ^ e] *)
Definition scale10 (m e : Z) : Q :=
  if 0 <=? e then inject_Z (m * 10 ^ e) else Qmake m (Z.to_pos (10 ^ (- e))).

(** [floatnumber ::= number [exponent]] with
    [number ::= [digitpart] "." digitpart | digitpart ["."]]. *)
Definition read_number (s : string) : option Q :=
  let '(ip, r1) := read_digits s in
  let '(dot, fp, r2) :=
    match r1 with
    | String c r =>
        if ascii_dec c "." then let '(fp, r2) := read_digits r in (true, fp, r2)
        else (false, [], r1)
    | EmptyString => (false, [], r1)
    end in
  match ip, fp with
  | [], [] => None
  | _, _ =>
      match read_exponent r2 with
      | Some (e, EmptyString) =>
          Some (scale10 (digits_value (ip ++ fp)) (e - Z.of_nat (length fp)))
      | _ => None
      end
  end.

(** [2 ^ e] *)
Definition pow2 (e : Z) : Q :=
  if 0 <=? e then inject_Z (2 ^ e) else Qmake 1 (Z.to_pos (2 ^ (- e))).

(** The exponent [e] with [2 ^ e <= q < 2 ^ (e + 1)], for [q] above zero. *)
Definition binade (q : Q) : Z :=
  let e := Z.log2 (Qnum q) - Z.log2 (Zpos (Qden q)) in
  if Qle_bool (pow2 e) q then e else e - 1.

(** The integer nearest to [q], the even one when two are as near. *)
Definition nearest_even (q : Q) : Z :=
  let n := Qfloor q in
  match (q - inject_Z n ?= 1 # 2)%Q with
  | Lt => n
  | Gt => n + 1
  | Eq => if Z.even n then n else n + 1
  end.

(** The nearest number with a mantissa of 53 bits, or the nearest multiple
    of [2 ^ -1074] where those are further apart. *)
Definition round (q : Q) : Q :=
  if Qeq_bool q 0 then 0%Q
  else
    let unit := pow2 (Z.max (binade (Qabs q) - 52) (- 1074)) in
    Qred (inject_Z (nearest_even (q / unit)) * unit).

(** The float nearest to [q]: an infinity from [2 ^ 1024] on. *)
Definition of_rational (q : Q) : value :=
  let r := round q in
  if Qle_bool (pow2 1024) (Qabs r) then Inf (negb (Qle_bool 0 r)) else Finite r.

(** [float(s)] *)
Definition of_str (s : string) : option value :=
  let '(negative, body) := read_sign (PyStr.strip s) in
  let word := lowercase body in
  if bool_decide (word = "inf" \/ word = "infinity") then Some (Inf negative)
  else if bool_decide (word = "nan") then Some NaN
  else q ← read_number body; Some (of_rational (if negative then - q else q)).

(** [math.trunc] *)
Definition truncate (q : Q) : Z := Z.quot (Qnum q) (Zpos (Qden q)).

(** [vx // wx] for two finite floats, [wx] not zero. *)
Definition float_divmod (vx wx : Q) : Q :=
  let mod_ := (vx - wx * inject_Z (truncate (vx / wx)))%Q in
  let div := round (round (vx - mod_) / wx) in
  let div :=
    if negb (Qeq_bool mod_ 0) && negb (Bool.eqb (negb (Qle_bool 0 wx)) (negb (Qle_bool 0 mod_)))
    then round (div - 1) else div in
  if Qeq_bool div 0 then 0%Q
  else
    let floordiv := inject_Z (Qfloor div) in
    if Qle_bool (div - floordiv) (1 # 2) then floordiv else round (floordiv + 1).

(** [x // n] for a float [x] and an [int] [n]: [n] is made a float first. *)
Definition floor_divide (x : value) (n : Z) : option value :=
  match of_rational (inject_Z n) with
  | Finite wx =>
      if Qeq_bool wx 0 then None
      else match x with
           | Finite vx => Some (Finite (float_divmod vx wx))
           | Inf _ | NaN => Some NaN
           end
  | Inf _ | NaN => None
  end.

(** [int(x)]: truncation towards zero. *)
Definition to_int (x : value) : option Z :=
  match x with
  | Finite q => Some (Z.quot (Qnum q) (Zpos (Qden q)))
  | Inf _ | NaN => None
  end.

#[global] Instance exact : Progress.PyFloat := {|
  Progress.pyfloat := value;
  Progress.float_of_str := of_str;
  Progress.floordiv := floor_divide;
  Progress.int_of_float := to_int
|}.

End DecimalFloat.

Module Machine.

(** A machine with indexes of 64 bits and memory for a text of up to
    [2 ^ 20] copies. *)
#[global] Instance bounded : PyStr.PyMemory := {|
  PyStr.fits := fun _ n => (- 2 ^ 63 <=? n) && (n <=? 2 ^ 20)
|}.

End Machine.

(** [int(s)] on text whose digits are ASCII, with the limit of 4300 digits
    that CPython sets by default.  The text of the exception shows
    [repr(s)], here for a text whose characters beyond ASCII are
    printable. *)

Module AsciiInt.

Definition quote (s : string) : string :=
  if PyStr.contains "'" s && negb (PyStr.contains (String (ascii_of_nat 34) "") s)
  then String (ascii_of_nat 34) "" else "'".

Definition hex_digit (n : nat) : ascii :=
  ascii_of_nat (if (n <? 10)%nat then 48 + n else 87 + n).

Fixpoint escaped (q : string) (s : string) : string :=
  match s with
  | EmptyString => EmptyString
  | String c s' =>
      let n := nat_of_ascii c in
      (if decide (String c "" = "\") then "\\"
       else if decide (String c "" = q) then "\" +:+ q
       else if (n =? 10)%nat then "\n"
       else if (n =? 13)%nat then "\r"
       else if (n =? 9)%nat then "\t"
       else if ((n <? 32) || (n =? 127))%nat then
         "\x" +:+ String (hex_digit (n / 16)) (String (hex_digit (n mod 16)) "")
       else String c "") +:+ escaped q s'
  end.

(** [repr(s)] *)
Definition repr (s : string) : string := quote s +:+ escaped (quote s) s +:+ quote s.

Definition invalid_literal (s : string) : exn :=
  Exn OtherException ("invalid literal for int() with base 10: " +:+ repr s).

Definition too_many_digits (n : nat) : exn :=
  Exn OtherException
    ("Exceeds the limit (4300 digits) for integer string conversion: value has "
     +:+ pretty n
     +:+ " digits; use sys.set_int_max_str_digits() to increase the limit").

(** [int(s)]: white space around an optional sign and digits, single
    underscores allowed between digits. *)
Definition of_str (s : string) : result Z :=
  let '(negative, body) := DecimalFloat.read_sign (PyStr.strip s) in
  match DecimalFloat.read_digits body with
  | ([], _) => Raise (invalid_literal s)
  | (ds, EmptyString) =>
      if (4300 <? length ds)%nat then Raise (too_many_digits (length ds))
      else Ok (if negative then - DecimalFloat.digits_value ds
               else DecimalFloat.digits_value ds)
  | (_, String _ _) => Raise (invalid_literal s)
  end.

End AsciiInt.

(** ** The bot: sessions, handlers and the download orchestration *)

Module Bot.

Import Config.

(** [FORMATS], in the order of the source. *)
Definition FORMATS : list (string * string) :=
  [("best", "Best Quality");
   ("best[height<=720]", "720p");
   ("best[height<=480]", "480p");
   ("bestaudio/best", "Audio Only");
   ("mp3", "MP3 Audio")].

(** [FORMATS.get(key, default)] *)
Fixpoint formats_get (table : list (string * string)) (key default : string) : string :=
  match table with
  | [] => default
  | (k, v) :: rest => if decide (k = key) then v else formats_get rest key default
  end.

(** An entry of [user_sessions]: the dictionary [{'url': ...}], with the key
    ['format'] once a format has been chosen. *)
Record session : Type := Session {
  url : string;
  format : option string
}.

Abbreviation user_sessions := (gmap Z session).

(** *** [set_channel_command] *)

Definition denied_text : string := "âŒ You don't have permission to use this command.".

Definition set_channel_command (ADMIN_IDS : list Z) (api : platform)
    (w_load w_save : write_outcome) (st : store) (user_id : Z) (args : list string)
  : store * list action * completion :=
  if negb (bool_decide (user_id ∈ ADMIN_IDS)) then
    (st, [ReplyText denied_text], finish api (ReplyText denied_text))
  else
    match args with
    | [] =>
        let a := ReplyText "Usage: /setchannel @channelusername" in
        (st, [a], finish api a)
    | arg0 :: _ =>
        let channel := PyStr.strip arg0 in
        if negb (PyStr.startswith "@" channel) then
          let a := ReplyText "Channel username must start with @" in
          (st, [a], finish api a)
        else
          let '(config, st1) := load_config w_load st in
          let a := ReplyText ("âœ… Required channel set to " +:+ channel) in
          match config with
          | TheDefault =>
              (* the assignment writes into [DEFAULT_CONFIG] itself *)
              let st2 := Store (config_file st1)
                               (<["required_channel" := JStr channel]> (DEFAULT_CONFIG st1)) in
              (save_config w_save (deref st2 TheDefault) st2, [a], finish api a)
          | Loaded v =>
              match py_setitem "required_channel" (JStr channel) v with
              | Some v' => (save_config w_save v' st1, [a], finish api a)
              | None => (st1, [], Propagated (setitem_error v))
              end
          end
    end.

(** *** [handle_message] and [format_button] *)

Definition keyboard : list (string * string) :=
  map (fun kv => (kv.2, "format_" +:+ kv.1)) FORMATS.

Definition handle_message (api : platform) (sessions : user_sessions)
    (user_id : Z) (message_text : string)
  : user_sessions * list action * completion :=
  let text := PyStr.strip message_text in
  if negb (PyStr.contains "youtube.com" text || PyStr.contains "youtu.be" text) then
    let a := ReplyText "Please send a valid YouTube URL." in
    (sessions, [a], finish api a)
  else
    let a := ReplyKeyboard "Select download format:" keyboard in
    (<[user_id := Session text None]> sessions, [a], finish api a).

Definition format_button (api : platform) (sessions : user_sessions)
    (user_id : Z) (data : string)
  : user_sessions * list action * completion :=
  match api AnswerQuery with
  | Raise e => (sessions, [AnswerQuery], Propagated e)
  | Ok _ =>
      match PyStr.split "_" data !! 1%nat with
      | None =>
          (sessions, [AnswerQuery], Propagated (Exn OtherException "list index out of range"))
      | Some format_key =>
          match sessions !! user_id with
          | None =>
              let a := EditQueryText "Session expired. Please send the URL again." in
              (sessions, [AnswerQuery; a], finish api a)
          | Some s =>
              let sessions' := <[user_id := Session (url s) (Some format_key)]> sessions in
              let format_name := formats_get FORMATS format_key format_key in
              let a := EditQueryText ("Selected: " +:+ format_name +:+ PyStr.nl
                                      +:+ "Starting download...") in
              match api a with
              | Raise e => (sessions', [AnswerQuery; a], Propagated e)
              | Ok _ =>
                  (sessions', [AnswerQuery; a; CreateTask user_id (url s) format_key],
                   Returned)
              end
          end
      end
  end.

(** *** [process_download] *)

Record postprocessor : Type := Postprocessor {
  key : string;
  preferredcodec : string;
  preferredquality : string
}.

(** The dictionary [ydl_opts].  Its entry [progress_hooks] holds the hook
    object; the library is opaque here, so that entry is left out. *)
Record ydl_opts : Type := YdlOpts {
  outtmpl : string;
  noplaylist : bool;
  quiet : bool;
  no_warnings : bool;
  format_selector : string;
  postprocessors : list postprocessor
}.

(** [os.path.join(a, b)] on a POSIX system. *)
Definition path_join (a b : string) : string :=
  if PyStr.startswith "/" b then b
  else if decide (a = "") then b
  else if PyStr.endswith "/" a then a +:+ b
  else a +:+ "/" +:+ b.

Definition build_opts (temp_dir format_key : string) : ydl_opts :=
  let out := path_join temp_dir "%(title)s.%(ext)s" in
  if decide (format_key = "mp3") then
    YdlOpts out true true true "bestaudio/best"
            [Postprocessor "FFmpegExtractAudio" "mp3" "192"]
  else
    YdlOpts out true true true format_key [].

(** Everything outside the function that a run of [process_download] meets. *)
Record download_env : Type := DownloadEnv {
  (* [tempfile.TemporaryDirectory()] *)
  make_tempdir : result string;
  (* [ydl.extract_info] then [ydl.prepare_filename]: the title of the
     metadata, if it has one, and the file name *)
  ydl_download : ydl_opts -> string -> result (option string * string);
  (* [os.path.exists] *)
  path_exists : string -> bool;
  (* [open(filename, 'rb')] *)
  open_file : string -> result unit;
  (* the awaited calls of the bot *)
  bot_api : platform;
  (* removal of the temporary directory when the [with] block is left *)
  cleanup_tempdir : result unit;
  (* what other handlers do to [user_sessions] while this task awaits the
     upload, and while it awaits the error message *)
  others_during_send : user_sessions -> user_sessions;
  others_during_error : user_sessions -> user_sessions
}.

Definition mp3_filename (filename : string) : string :=
  PyStr.rsplit1_head "." filename +:+ ".mp3".

(** The file name after the block "Handle MP3 conversion if needed". *)
Definition final_filename (env : download_env) (format_key filename : string) : string :=
  if decide (format_key = "mp3") then
    if path_exists env (mp3_filename filename) then mp3_filename filename else filename
  else filename.

Inductive message_kind : Type := Audio | Video | Document.

(** The branch taken by the chain of [endswith] tests. *)
Definition kind_of (filename : string) : message_kind :=
  if PyStr.endswith ".mp3" filename then Audio
  else if existsb (fun ext => PyStr.endswith ext filename) [".mp4"; ".webm"; ".mkv"] then Video
  else Document.

Definition send_action (user_id : Z) (filename title : string) : action :=
  match kind_of filename with
  | Audio => SendAudio user_id filename title
  | Video => SendVideo user_id filename title
  | Document => SendDocument user_id filename title
  end.

(** Leaving the [with tempfile.TemporaryDirectory()] block: a failing
    removal replaces the result of the body. *)
Definition leave_tempdir (env : download_env) (body : result unit) : result unit :=
  match cleanup_tempdir env with
  | Ok _ => body
  | Raise e => Raise e
  end.

(** The [try] block: the calls made to the platform and how the block ends. *)
Definition try_block (env : download_env) (user_id : Z) (url format_key : string)
  : list action * result unit :=
  match make_tempdir env with
  | Raise e => ([], Raise e)
  | Ok temp_dir =>
      match ydl_download env (build_opts temp_dir format_key) url with
      | Raise e => ([], leave_tempdir env (Raise e))
      | Ok (info_title, filename) =>
          let filename := final_filename env format_key filename in
          let title := default "video" info_title in
          match open_file env filename with
          | Raise e => ([], leave_tempdir env (Raise e))
          | Ok _ =>
              let a := send_action user_id filename title in
              ([a], leave_tempdir env (bot_api env a))
          end
      end
  end.

Definition error_text (e : exn) : string :=
  let error_msg :=
    match cls e with
    | DownloadError => "Download failed. The video may be restricted or unavailable."
    | _ => "An error occurred: " +:+ msg e
    end in
  "âŒ " +:+ error_msg +:+ PyStr.nl +:+ "Please try again with a different video.".

Definition process_download (env : download_env) (sessions : user_sessions)
    (user_id : Z) (url format_key : string)
  : user_sessions * list action * completion :=
  let '(sent, r) := try_block env user_id url format_key in
  let sessions1 :=
    match sent with
    | [] => sessions
    | _ => others_during_send env sessions
    end in
  match r with
  | Ok _ =>
      (* [else:] clean up session on success *)
      (delete user_id sessions1, sent, Returned)
  | Raise e =>
      if is_Exception e then
        let a := SendMessage user_id (error_text e) in
        let sessions2 := others_during_error env sessions1 in
        match bot_api env a with
        | Ok _ => (delete user_id sessions2, sent ++ [a], Returned)
        | Raise e' =>
            if is_Exception e' then (delete user_id sessions2, sent ++ [a], Returned)
            else (sessions2, sent ++ [a], Propagated e')
        end
      else (sessions1, sent, Propagated e)
  end.

End Bot.

(** ** Sample inputs for running the definitions *)

Module Samples.

Import Progress Bot.

(** Events as the download library reports them. *)
Definition half : event :=
  Event "downloading" (Some " 50.0%") (Some "1.00MiB/s") (Some "00:10").

Definition half_faster : event :=
  Event "downloading" (Some " 50.0%") (Some "2.00MiB/s") (Some "00:05").

Definition no_percent : event :=
  Event "downloading" (Some "") (Some "1.00MiB/s") (Some "00:10").

(** Outcomes of the call the hook makes. *)
Definition sent : result Z := Ok 55.

Definition timed_out : result Z := Raise (Exn OtherException "Timed out").

(** The hook after the message 55 with the text of [half] went out at 10. *)
Definition shown : ProgressHook := Hook 7 10 (Some 55) (render half).

(** A platform that carries out every call. *)
Definition accepting : platform := fun _ => Ok ().

(** A download of a WebM file whose audio was extracted to an MP3 file. *)
Definition extracted : download_env :=
  DownloadEnv (Ok "/tmp/tmpk3") (fun _ _ => Ok (Some "Song", "/tmp/tmpk3/Song.webm"))
              (fun path => bool_decide (path = "/tmp/tmpk3/Song.mp3"))
              (fun _ => Ok ()) accepting (Ok ()) id id.

(** The library refuses the video, and the error message cannot be sent. *)
Definition refused : download_env :=
  DownloadEnv (Ok "/tmp/tmpk3") (fun _ _ => Raise (Exn DownloadError "Video unavailable"))
              (fun _ => false) (fun _ => Ok ())
              (fun _ => Raise (Exn OtherException "Timed out")) (Ok ()) id id.

(** The task is cancelled while it uploads the file. *)
Definition cancelled : download_env :=
  DownloadEnv (Ok "/tmp/tmpk3") (fun _ _ => Ok (None, "/tmp/tmpk3/clip.mkv"))
              (fun _ => false) (fun _ => Ok ())
              (fun _ => Raise (Exn NonException "CancelledError")) (Ok ()) id id.

End Samples.

(** ** Start of the process: the environment variables *)

Module Startup.

(** The three variables read with [os.getenv]; [None] when a variable is
    not set. *)
Record environment : Type := Environment {
  env_BOT_TOKEN : option string;
  env_ADMIN_IDS : option string;
  env_REQUIRED_CHANNEL : option string
}.

Record settings : Type := Settings {
  BOT_TOKEN : string;
  ADMIN_IDS : list Z;
  REQUIRED_CHANNEL : string
}.

Section WithInt.

(** The built-in [int] on a [str]: the number, or the [ValueError] raised. *)
Variable int : string -> result Z.

(** The comprehension [[int(id.strip()) for id in ... if id.strip()]] over
    the pieces of the split. *)
Fixpoint ids_of (pieces : list string) : result (list Z) :=
  match pieces with
  | [] => Ok []
  | id :: rest =>
      if decide (PyStr.strip id = "") then ids_of rest
      else match int (PyStr.strip id) with
           | Raise e => Raise e
           | Ok n =>
               match ids_of rest with
               | Raise e => Raise e
               | Ok ns => Ok (n :: ns)
               end
           end
  end.

(** [ADMIN_IDS] from the text of the environment variable. *)
Definition admin_ids (value : string) : result (list Z) :=
  ids_of (PyStr.split "," value).

(** The module-level statements up to "Validate required configuration". *)
Definition startup (env : environment) : result settings :=
  match admin_ids (default "" (env_ADMIN_IDS env)) with
  | Raise e => Raise e
  | Ok ids =>
      if bool_decide (default "" (env_BOT_TOKEN env) = "") || bool_decide (ids = []) then
        Raise (Exn OtherException
                 "Missing required environment variables: BOT_TOKEN and ADMIN_IDS")
      else
        Ok (Settings (default "" (env_BOT_TOKEN env)) ids
                     (default "" (env_REQUIRED_CHANNEL env)))
  end.

End WithInt.

End Startup.

(** ** The commands that read the required channel *)

Module Commands.

Import Config.

(** [c in s] for a character. *)
Fixpoint occurs (c : ascii) (s : string) : bool :=
  match s with
  | EmptyString => false
  | String x s' => if ascii_dec x c then true else occurs c s'
  end.

(** A call of [update.message.reply_text] with its [parse_mode]. *)
Inductive reply : Type :=
  | Reply (text : string) (parse_mode : option string).

Section WithSettings.

(** The list [ADMIN_IDS], the default [REQUIRED_CHANNEL], and the text that
    an f-string gives for a loaded value that is not a string. *)
Variable ADMIN_IDS : list Z.
Variable REQUIRED_CHANNEL : string.
Variable py_repr : json -> string.

(** What an f-string shows for a value: a string is shown as it is. *)
Definition py_format (v : json) : string :=
  match v with
  | JStr s => s
  | _ => py_repr v
  end.

(** [get_required_channel]: [config.get] exists on a dictionary only. *)
Definition get_required_channel (w : write_outcome) (st : store) : result json * store :=
  let '(config, st1) := load_config w st in
  match deref st1 config with
  | JObj m => (Ok (default (JStr REQUIRED_CHANNEL) (m !! "required_channel")), st1)
  | v => (Raise (get_error v), st1)
  end.

Definition get_channel_command (api : platform) (w : write_outcome) (st : store)
    (user_id : Z) : store * list action * completion :=
  if negb (bool_decide (user_id ∈ ADMIN_IDS)) then
    (st, [ReplyText Bot.denied_text], finish api (ReplyText Bot.denied_text))
  else
    match get_required_channel w st with
    | (Raise e, st1) => (st1, [], Propagated e)
    | (Ok required_channel, st1) =>
        let a := ReplyText ("Current required channel: " +:+ py_format required_channel) in
        (st1, [a], finish api a)
    end.

(** *** [check_membership] *)

Definition member_text (required_channel : string) : string :=
  "âœ… You are a member of " +:+ required_channel +:+ "!".

Definition not_member_text (required_channel : string) : string :=
  "âŒ You are not a member of " +:+ required_channel +:+ ".".

Definition unverified_text (required_channel : string) : string :=
  "âš ï¸ Could not verify membership. Please make sure:" +:+ PyStr.nl
  +:+ "1. You've joined " +:+ required_channel +:+ PyStr.nl
  +:+ "2. The channel is public" +:+ PyStr.nl
  +:+ "3. You're not restricting bot access in privacy settings".

(** [lookup] is the outcome of [get_chat_member]: the [status] of the member,
    or the exception raised.  The result is the value returned, or the
    exception that leaves the handler. *)
Definition check_membership (lookup : json -> Z -> result string) (api : platform)
    (w : write_outcome) (st : store) (user_id : Z)
  : store * list action * result bool :=
  match get_required_channel w st with
  | (Raise e, st1) => (st1, [], Raise e)
  | (Ok required_channel, st1) =>
      let channel := py_format required_channel in
      (* the [except Exception] branch, after the calls [made] so far *)
      let handler (made : list action) :=
        let a := ReplyText (unverified_text channel) in
        (st1, made ++ [a],
         match api a with
         | Ok _ => Ok false
         | Raise e => Raise e
         end) in
      match lookup required_channel user_id with
      | Raise e => if is_Exception e then handler [] else (st1, [], Raise e)
      | Ok status =>
          let is_member := bool_decide (status ∈ ["member"; "administrator"; "creator"]) in
          let a := ReplyText (if is_member then member_text channel
                              else not_member_text channel) in
          match api a with
          | Ok _ => (st1, [a], Ok is_member)
          | Raise e => if is_Exception e then handler [a] else (st1, [a], Raise e)
          end
      end
  end.

(** *** [start] *)

Definition welcome_message (first_name required_channel : string) (is_admin : bool)
  : string :=
  let welcome_message :=
    "Hello " +:+ first_name +:+ "\! ðŸ‘‹" +:+ PyStr.nl +:+ PyStr.nl
    +:+ "I'm your YouTube Video Downloader bot\. ðŸŽ¥" +:+ PyStr.nl +:+ PyStr.nl
    +:+ "âš ï¸ *Important*\: You must join our channel " +:+ required_channel
    +:+ " to use this bot\!" +:+ PyStr.nl +:+ PyStr.nl
    +:+ "Send me a YouTube URL and I'll help you download it\!" +:+ PyStr.nl +:+ PyStr.nl
    +:+ "*Commands*\:" +:+ PyStr.nl
    +:+ "/start \- Start the bot" +:+ PyStr.nl
    +:+ "/help \- Get help" +:+ PyStr.nl
    +:+ "/formats \- See available formats" +:+ PyStr.nl
    +:+ "/check \- Verify channel membership" +:+ PyStr.nl in
  if is_admin then
    welcome_message +:+ PyStr.nl +:+ "ðŸ” *Admin Commands*\:" +:+ PyStr.nl
    +:+ "/setchannel \- Set required channel" +:+ PyStr.nl
    +:+ "/getchannel \- Get current channel" +:+ PyStr.nl
  else welcome_message.

(** The text of the plain-text fallback. *)
Definition plain_text (welcome_message : string) : string :=
  PyStr.replace "`" "" (PyStr.replace "*" "" welcome_message).

Definition start (api : reply -> result unit) (w : write_outcome) (st : store)
    (user_id : Z) (first_name : string) : store * list reply * completion :=
  match get_required_channel w st with
  | (Raise e, st1) => (st1, [], Propagated e)
  | (Ok required_channel, st1) =>
      let text := welcome_message first_name (py_format required_channel)
                    (bool_decide (user_id ∈ ADMIN_IDS)) in
      let first := Reply text (Some "MarkdownV2") in
      match api first with
      | Ok _ => (st1, [first], Returned)
      | Raise e =>
          if is_Exception e then
            let second := Reply (plain_text text) None in
            (st1, [first; second],
             match api second with
             | Ok _ => Returned
             | Raise e' => Propagated e'
             end)
          else (st1, [first], Propagated e)
      end
  end.

End WithSettings.

End Commands.

(** ** More sample inputs *)

Module Fixtures.

Import Progress Bot.

(** The upload is accepted, then the temporary directory cannot be removed. *)
Definition undeletable : download_env :=
  DownloadEnv (Ok "/tmp/tmpk3") (fun _ _ => Ok (None, "/tmp/tmpk3/clip.mkv"))
              (fun _ => false) (fun _ => Ok ()) Samples.accepting
              (Raise (Exn OtherException "Directory not empty")) id id.

(** Outcomes of [get_chat_member]. *)
Definition as_member : Config.json -> Z -> result string := fun _ _ => Ok "member".

Definition chat_not_found : Config.json -> Z -> result string :=
  fun _ _ => Raise (Exn OtherException "Chat not found").

(** The channel of these samples is a string, so the text of other values
    plays no part. *)
Definition no_repr : Config.json -> string := fun _ => "".

Definition finished : event := Event "finished" None None None.

(** A platform that accepts plain replies only. *)
Definition no_markdown : Commands.reply -> result unit :=
  fun r =>
    match r with
    | Commands.Reply _ (Some _) => Raise (Exn OtherException "Can't parse entities")
    | Commands.Reply _ None => Ok ()
    end.

End Fixtures.

(** * Properties *)

(** Case analysis on a membership [H : a ∈ [x1; ...; xn]]. *)
Ltac list_cases H :=
  repeat (apply elem_of_cons in H as [->|H]); try (by apply elem_of_nil in H).

(** ** Facts about the string methods *)

Section StringFacts.

Lemma app_cons (x : ascii) (a b : string) : String x a +:+ b = String x (a +:+ b).
Proof. reflexivity. Qed.

Lemma app_assoc_str (a b c : string) : (a +:+ b) +:+ c = a +:+ (b +:+ c).
Proof.
  induction a as [|x a IH]; [done |].
  rewrite !app_cons. by f_equal.
Qed.

Lemma rev_onto_app (s t acc : string) :
  PyStr.rev_onto (s +:+ t) acc = PyStr.rev_onto t (PyStr.rev_onto s acc).
Proof.
  revert acc; induction s as [|c s IH]; intros acc; [done |].
  rewrite app_cons. simpl. apply IH.
Qed.

Lemma rev_onto_acc (s acc : string) :
  PyStr.rev_onto s acc = PyStr.rev_onto s "" +:+ acc.
Proof.
  revert acc; induction s as [|c s IH]; intros acc; simpl; [done |].
  rewrite (IH (String c acc)), (IH (String c "")), app_assoc_str. done.
Qed.

Lemma rev_app (s t : string) : PyStr.rev (s +:+ t) = PyStr.rev t +:+ PyStr.rev s.
Proof. unfold PyStr.rev. rewrite rev_onto_app. apply rev_onto_acc. Qed.

Lemma rev_involutive (s : string) : PyStr.rev (PyStr.rev s) = s.
Proof.
  induction s as [|c s IH]; [done |].
  change (String c s) with (String c "" +:+ s) at 1.
  rewrite rev_app, rev_app, IH. done.
Qed.

Lemma startswith_app (p s : string) : PyStr.startswith p (p +:+ s) = true.
Proof.
  induction p as [|c p IH]; [done |].
  rewrite app_cons. simpl. destruct (ascii_dec c c); [apply IH | done].
Qed.

Lemma startswith_inv (p s : string) :
  PyStr.startswith p s = true -> exists t, s = p +:+ t.
Proof.
  revert s; induction p as [|c p IH]; intros s; simpl.
  - intros _. by exists s.
  - destruct s as [|d s]; [done |].
    destruct (ascii_dec c d) as [->|]; [| done].
    intros [t ->]%IH. by exists t.
Qed.

(** [(s + p).endswith(p)] *)
Lemma endswith_app (s p : string) : PyStr.endswith p (s +:+ p) = true.
Proof. unfold PyStr.endswith. rewrite rev_app. apply startswith_app. Qed.

Lemma endswith_inv (p s : string) :
  PyStr.endswith p s = true -> exists t, s = t +:+ p.
Proof.
  unfold PyStr.endswith. intros [t Ht]%startswith_inv.
  exists (PyStr.rev t).
  rewrite <- (rev_involutive s), Ht, rev_app, rev_involutive. done.
Qed.

(** *** White space *)

Lemma length_app_str (a b : string) :
  String.length (a +:+ b) = (String.length a + String.length b)%nat.
Proof. induction a as [|x a IH]; [done |]. rewrite app_cons. simpl. by rewrite IH. Qed.

Lemma length_rev_onto (s acc : string) :
  String.length (PyStr.rev_onto s acc) = (String.length s + String.length acc)%nat.
Proof.
  revert acc; induction s as [|c s IH]; intros acc; simpl; [done |].
  rewrite IH. simpl. lia.
Qed.

Lemma drop_prefix_inv (p s r : string) : PyStr.drop_prefix p s = Some r -> s = p +:+ r.
Proof.
  revert s; induction p as [|a p IH]; intros s; simpl.
  - by intros [= ->].
  - destruct s as [|b s]; [done |].
    destruct (ascii_dec a b) as [->|]; [| done].
    intros ->%IH. done.
Qed.

Lemma drop_prefix_app (p r : string) : PyStr.drop_prefix p (p +:+ r) = Some r.
Proof.
  induction p as [|a p IH]; [done |].
  rewrite app_cons. simpl. by destruct (ascii_dec a a).
Qed.

Lemma drop_first_inv (table : list string) (s r : string) :
  PyStr.drop_first table s = Some r -> exists w, w ∈ table /\ s = w +:+ r.
Proof.
  induction table as [|w table IH]; simpl; [done |].
  destruct (PyStr.drop_prefix w s) as [s'|] eqn:Hw.
  - intros [= ->]. exists w. split; [by constructor | by apply drop_prefix_inv].
  - intros (w' & Hin & ->)%IH. exists w'. split; [by constructor | done].
Qed.

Lemma drop_first_app (table : list string) (w r : string) :
  w ∈ table -> is_Some (PyStr.drop_first table (w +:+ r)).
Proof.
  induction table as [|x table IH]; [by intros ?%elem_of_nil |].
  intros [->|Hin]%elem_of_cons; simpl.
  - by rewrite drop_prefix_app.
  - destruct (PyStr.drop_prefix x (w +:+ r)); [done | by apply IH].
Qed.

(** Every round of [drop_leading] makes the text shorter, so a bound of
    the length of the text is never met: nothing of [table] is left at the
    front. *)
Lemma drop_leading_done (table : list string) (n : nat) (s : string) :
  Forall (fun w => w <> "") table ->
  (String.length s <= n)%nat ->
  PyStr.drop_first table (PyStr.drop_leading table n s) = None.
Proof.
  intros Htable. revert s. induction n as [|n IH]; intros s Hn; simpl.
  - destruct s; [| simpl in Hn; lia].
    destruct (PyStr.drop_first table "") as [r|] eqn:Hr; [| done].
    apply drop_first_inv in Hr as (w & Hin & Hw).
    rewrite Forall_forall in Htable. destruct (Htable w Hin). by destruct w.
  - destruct (PyStr.drop_first table s) as [r|] eqn:Hr; [| done].
    apply IH. apply drop_first_inv in Hr as (w & Hin & ->).
    rewrite Forall_forall in Htable. specialize (Htable w Hin).
    rewrite length_app_str in Hn. destruct w; [done |]. simpl in Hn. lia.
Qed.

Lemma whitespace_not_empty : Forall (fun w => w <> "") PyStr.whitespace.
Proof. repeat constructor; discriminate. Qed.

(** [lstrip] leaves no white space at the front, and [rstrip] none at the
    end. *)
Lemma lstrip_done (s : string) : PyStr.drop_first PyStr.whitespace (PyStr.lstrip s) = None.
Proof. apply drop_leading_done; [apply whitespace_not_empty | done]. Qed.

Lemma rstrip_done (s : string) :
  PyStr.drop_first (map PyStr.rev PyStr.whitespace) (PyStr.rev (PyStr.rstrip s)) = None.
Proof.
  unfold PyStr.rstrip. rewrite rev_involutive. apply drop_leading_done.
  - repeat constructor; discriminate.
  - unfold PyStr.rev. rewrite length_rev_onto. simpl. lia.
Qed.

Lemma no_space_app (a b : string) :
  PyStr.no_space (a +:+ b) = true -> PyStr.no_space b = true.
Proof.
  induction a as [|x a IH]; [done |]. rewrite app_cons. cbn [PyStr.no_space].
  destruct (PyStr.drop_first PyStr.whitespace _); [done | exact IH].
Qed.

Lemma no_space_head (s : string) :
  PyStr.no_space s = true -> PyStr.drop_first PyStr.whitespace s = None.
Proof.
  destruct s as [|c s]; [intros _; vm_compute; reflexivity |].
  cbn [PyStr.no_space]. by destruct (PyStr.drop_first PyStr.whitespace _).
Qed.

(** [strip] leaves a word without white space as it is. *)
Lemma strip_no_space (s : string) : PyStr.no_space s = true -> PyStr.strip s = s.
Proof.
  intros Hs.
  assert (PyStr.lstrip s = s) as Hl.
  { unfold PyStr.lstrip. destruct (String.length s); cbn [PyStr.drop_leading]; [done |].
    by rewrite no_space_head. }
  unfold PyStr.strip. rewrite Hl. unfold PyStr.rstrip.
  assert (PyStr.drop_first (map PyStr.rev PyStr.whitespace) (PyStr.rev s) = None) as Hr.
  { destruct (PyStr.drop_first _ (PyStr.rev s)) as [r|] eqn:Hr; [| done]. exfalso.
    apply drop_first_inv in Hr as (w' & Hin & Hrev).
    apply list_elem_of_In, in_map_iff in Hin as (w & <- & Hw%list_elem_of_In).
    apply (f_equal PyStr.rev) in Hrev.
    rewrite rev_involutive, rev_app, rev_involutive in Hrev. subst s.
    apply no_space_app, no_space_head in Hs.
    destruct (drop_first_app PyStr.whitespace w "" Hw) as [x Hx].
    assert (w +:+ "" = w) as Hnil by (clear; induction w as [|c w IH]; [done |];
                                      rewrite app_cons; by f_equal).
    rewrite Hnil in Hx. congruence. }
  destruct (String.length s); cbn [PyStr.drop_leading]; [apply rev_involutive |].
  rewrite Hr. apply rev_involutive.
Qed.

Lemma occurs_app (c : ascii) (a b : string) :
  Commands.occurs c (a +:+ b) = Commands.occurs c a || Commands.occurs c b.
Proof.
  induction a as [|x a IH]; [done |]. rewrite app_cons. simpl.
  by destruct (ascii_dec x c).
Qed.

Lemma occurs_rev (c : ascii) (s : string) :
  Commands.occurs c (PyStr.rev s) = Commands.occurs c s.
Proof.
  induction s as [|x s IH]; [done |].
  change (String x s) with (String x "" +:+ s) at 1.
  rewrite rev_app, occurs_app, IH. simpl.
  destruct (ascii_dec x c); [apply orb_true_r | apply orb_false_r].
Qed.

Lemma drop_leading_occurs (c : ascii) (table : list string) (n : nat) (s : string) :
  Forall (fun w => Commands.occurs c w = false) table ->
  Commands.occurs c (PyStr.drop_leading table n s) = Commands.occurs c s.
Proof.
  intros Htable. revert s. induction n as [|n IH]; intros s; simpl; [done |].
  destruct (PyStr.drop_first table s) as [r|] eqn:Hr; [| done].
  apply drop_first_inv in Hr as (w & Hin & ->).
  rewrite Forall_forall in Htable. by rewrite IH, occurs_app, (Htable w Hin).
Qed.

(** A character that is part of no white space is kept by [strip]. *)
Lemma occurs_strip (c : ascii) (s : string) :
  Forall (fun w => Commands.occurs c w = false) PyStr.whitespace ->
  Commands.occurs c (PyStr.strip s) = Commands.occurs c s.
Proof.
  intros Hc. unfold PyStr.strip, PyStr.rstrip, PyStr.lstrip.
  rewrite occurs_rev, drop_leading_occurs, occurs_rev, drop_leading_occurs; [done.. |].
  apply Forall_map. eapply Forall_impl; [exact Hc |].
  intros w Hw. cbn beta. by rewrite occurs_rev.
Qed.

End StringFacts.

(** ** Splitting, searching and replacing *)

Section SplitFacts.

Lemma app_nil_l_str (s : string) : "" +:+ s = s.
Proof. reflexivity. Qed.

Lemma split_nonempty (sep : ascii) (s : string) : PyStr.split sep s <> [].
Proof.
  destruct s as [|c s]; simpl; [done |].
  destruct (ascii_dec c sep); [done |]. by destruct (PyStr.split sep s).
Qed.

(** A string without the separator is one piece. *)
Lemma split_no_sep (sep : ascii) (s : string) :
  Commands.occurs sep s = false -> PyStr.split sep s = [s].
Proof.
  induction s as [|c s IH]; simpl; [done |].
  destruct (ascii_dec c sep); [done |]. intros Hs. by rewrite IH.
Qed.

(** Splitting at a separator splits the pieces. *)
Lemma split_app (sep : ascii) (a b : string) :
  PyStr.split sep (a +:+ String sep b) = PyStr.split sep a ++ PyStr.split sep b.
Proof.
  induction a as [|c a IH].
  - rewrite app_nil_l_str. simpl. by destruct (ascii_dec sep sep).
  - rewrite app_cons. simpl. destruct (ascii_dec c sep); [by rewrite IH |].
    rewrite IH. pose proof (split_nonempty sep a) as Hne.
    by destruct (PyStr.split sep a).
Qed.

Lemma before_last_none (sep : ascii) (s : string) :
  Commands.occurs sep s = false -> PyStr.before_last sep s = None.
Proof.
  induction s as [|c s IH]; simpl; [done |].
  destruct (ascii_dec c sep); [done |]. intros Hs. by rewrite IH.
Qed.

(** The text before the last separator. *)
Lemma before_last_app (sep : ascii) (s t : string) :
  Commands.occurs sep t = false ->
  PyStr.before_last sep (s +:+ String sep t) = Some s.
Proof.
  intros Ht. induction s as [|c s IH].
  - rewrite app_nil_l_str. simpl. rewrite before_last_none by done.
    by destruct (ascii_dec sep sep).
  - rewrite app_cons. simpl. by rewrite IH.
Qed.

Lemma contains_app (sub a b : string) : PyStr.contains sub (a +:+ sub +:+ b) = true.
Proof.
  induction a as [|c a IH].
  - rewrite app_nil_l_str. destruct (sub +:+ b) eqn:Hs; simpl;
      rewrite <- Hs, startswith_app; done.
  - rewrite app_cons. simpl. rewrite IH. apply orb_true_r.
Qed.

(** [sub in s] holds exactly when [sub] lies somewhere inside [s]. *)
Lemma contains_spec (sub s : string) :
  PyStr.contains sub s = true <-> exists a b, s = a +:+ sub +:+ b.
Proof.
  split; [| intros (a & b & ->); apply contains_app].
  induction s as [|c s IH]; simpl.
  - rewrite orb_false_r. intros [t Ht]%startswith_inv. by exists "", t.
  - intros [[t Ht]%startswith_inv | (a & b & ->)%IH]%orb_true_iff.
    + by exists "", t.
    + by exists (String c a), b.
Qed.

Lemma occurs_replace_same (c : ascii) (s : string) :
  Commands.occurs c (PyStr.replace c "" s) = false.
Proof.
  induction s as [|x s IH]; simpl; [done |].
  destruct (ascii_dec x c); [by rewrite app_nil_l_str |].
  simpl. by destruct (ascii_dec x c).
Qed.

Lemma occurs_replace_other (c d : ascii) (s : string) :
  Commands.occurs c s = false -> Commands.occurs c (PyStr.replace d "" s) = false.
Proof.
  induction s as [|x s IH]; simpl; [done |].
  destruct (ascii_dec x c); [done |]. intros Hs.
  destruct (ascii_dec x d); [rewrite app_nil_l_str; by apply IH |].
  simpl. destruct (ascii_dec x c); [done | by apply IH].
Qed.

Lemma app_nil_r_str (s : string) : s +:+ "" = s.
Proof. induction s as [|x s IH]; [done |]. rewrite app_cons. by f_equal. Qed.

(** Replacing a character by nothing removes it and keeps the rest in
    order. *)
Lemma replace_filter (c : ascii) (s : string) :
  list_ascii_of_string (PyStr.replace c "" s)
  = List.filter (fun x => negb (bool_decide (x = c))) (list_ascii_of_string s).
Proof.
  induction s as [|x s IH]; simpl; [done |].
  destruct (ascii_dec x c) as [->|Hne].
  - rewrite app_nil_l_str, bool_decide_eq_true_2 by done. exact IH.
  - rewrite bool_decide_eq_false_2 by done. simpl. by rewrite IH.
Qed.

Lemma filter_twice {A : Type} (f g : A -> bool) (l : list A) :
  List.filter g (List.filter f l) = List.filter (fun x => f x && g x) l.
Proof.
  induction l as [|x l IH]; simpl; [done |].
  destruct (f x); simpl; [| exact IH]. destruct (g x); by rewrite IH.
Qed.

End SplitFacts.

(** ** Configuration store *)

Section ConfigFacts.
Import Config.

Implicit Types (c d : gmap string json) (st : store) (w : write_outcome).

(** On a dictionary the loop of [load_config] adds exactly the missing
    defaults. *)
Lemma backfill_dict (items : list (string * json)) c :
  backfill items (JObj c) = Some (JObj (c ∪ list_to_map items)).
Proof.
  revert c; induction items as [|[k v] rest IH]; intros c; simpl.
  - by rewrite (right_id_L ∅ (∪)).
  - case_bool_decide as Hk.
    + rewrite IH. do 2 f_equal. apply map_eq; intros i.
      rewrite !lookup_union. destruct (decide (i = k)) as [->|Hne].
      * destruct Hk as [x Hx]. rewrite Hx. by rewrite !union_Some_l.
      * by rewrite lookup_insert_ne.
    + rewrite IH. do 2 f_equal.
      rewrite <- insert_union_l. apply insert_union_r.
      by apply eq_None_not_Some.
Qed.

Lemma load_config_dict w st c :
  config_file st = Holds (JObj c) ->
  load_config w st = (Loaded (JObj (c ∪ DEFAULT_CONFIG st)), st).
Proof.
  intros Hf. unfold load_config. rewrite Hf, backfill_dict.
  by rewrite list_to_map_to_list.
Qed.

(** The loop never removes a member. *)
Lemma backfill_keeps (items : list (string * json)) (k : string) (v v' : json) :
  py_in k v = Some true -> backfill items v = Some v' -> py_in k v' = Some true.
Proof.
  revert v; induction items as [|[key value] rest IH]; intros v Hin; simpl.
  - by intros [= <-].
  - destruct (py_in key v) as [[]|] eqn:Hkey; [by apply IH | | done].
    destruct v as [| | | |l|m]; simpl; try done.
    apply IH. simpl in *. f_equal. apply bool_decide_eq_true.
    injection Hin as Hin. apply bool_decide_eq_true in Hin.
    destruct (decide (k = key)) as [->|Hne].
    + rewrite lookup_insert_eq. by eexists.
    + by rewrite lookup_insert_ne.
Qed.

(** When the loop completes, every key it ran over is a member. *)
Lemma backfill_covers (items : list (string * json)) (v v' : json) (k : string) (x : json) :
  backfill items v = Some v' -> (k, x) ∈ items -> py_in k v' = Some true.
Proof.
  revert v; induction items as [|[key value] rest IH]; intros v; simpl.
  - intros _ Hel. by apply elem_of_nil in Hel.
  - destruct (py_in key v) as [[]|] eqn:Hkey; [| | done].
    + intros Hb [[= -> ->]|Hel]%elem_of_cons; [| by eapply IH].
      by eapply backfill_keeps.
    + destruct v as [| | | |l|m]; simpl; try done.
      intros Hb [[= -> ->]|Hel]%elem_of_cons; [| by eapply IH].
      eapply backfill_keeps; [| exact Hb]. simpl.
      f_equal. apply bool_decide_eq_true. rewrite lookup_insert_eq. by eexists.
Qed.

End ConfigFacts.

Section ConfigClaims.
Import Config.

Implicit Types (c : gmap string json) (st : store) (w : write_outcome).

Lemma union_defaults_id c (d : gmap string json) :
  dom d = {["required_channel"]} ->
  is_Some (c !! "required_channel") ->
  c ∪ d = c.
Proof.
  intros Hdom [x Hx]. apply map_eq; intros i. rewrite lookup_union.
  destruct (c !! i) as [y|] eqn:Hi; [by rewrite union_Some_l |].
  assert (d !! i = None) as ->; [| done].
  apply not_elem_of_dom. rewrite Hdom. apply not_elem_of_singleton.
  intros ->. congruence.
Qed.

(** A dictionary saved without the key is not read back as it was saved:
    [load_config] fills the key in.  Neither caller of [save_config] passes
    such a dictionary. *)
Example load_config_fills_empty_dictionary :
  (load_config Written
     (save_config Written (JObj ∅) (fresh_store "@channel" Missing))).1
  = Loaded (JObj {["required_channel" := JStr "@channel"]}).
Proof. vm_compute. reflexivity. Qed.

(** C7.  For every configuration [c], a dictionary with the key
    [required_channel] as [save_config] receives it from both its callers,
    [save_config(c)] with a successful write followed by [load_config()]
    returns a value equal to [c] and leaves the file as written.
    [DEFAULT_CONFIG] has the one key it is created with. *)
Theorem save_then_load c st w :
  dom (DEFAULT_CONFIG st) = {["required_channel"]} ->
  is_Some (c !! "required_channel") ->
  load_config w (save_config Written (JObj c) st)
  = (Loaded (JObj c), save_config Written (JObj c) st).
Proof.
  intros Hdom Hc. rewrite (load_config_dict _ _ c) by done.
  simpl. by rewrite union_defaults_id.
Qed.

Lemma save_then_load_witness :
  dom (DEFAULT_CONFIG (fresh_store "@channel" Unreadable)) = {["required_channel"]} /\
  is_Some (({["required_channel" := JStr "@music"; "lang" := JStr "en"]}
            : gmap string json) !! "required_channel") /\
  load_config DumpFailed
    (save_config Written
       (JObj {["required_channel" := JStr "@music"; "lang" := JStr "en"]})
       (fresh_store "@channel" Unreadable))
  = (Loaded (JObj {["required_channel" := JStr "@music"; "lang" := JStr "en"]}),
     save_config Written
       (JObj {["required_channel" := JStr "@music"; "lang" := JStr "en"]})
       (fresh_store "@channel" Unreadable)).
Proof.
  assert (dom (DEFAULT_CONFIG (fresh_store "@channel" Unreadable))
          = {["required_channel"]}) as Hdom
    by apply dom_singleton_L.
  assert (is_Some (({["required_channel" := JStr "@music"; "lang" := JStr "en"]}
                    : gmap string json) !! "required_channel")) as Hc
    by (exists (JStr "@music"); reflexivity).
  split; [exact Hdom | split; [exact Hc |]].
  exact (save_then_load _ (fresh_store "@channel" Unreadable) DumpFailed Hdom Hc).
Defined.

(** C8, at the input where the code departs from it.  A file that holds
    the JSON array [["required_channel"]] passes the test [key not in config]
    of the loop "Ensure all keys are present", so [load_config] returns the
    array as it is: what it returns is no dictionary, holds nothing under
    the key [required_channel], and [get_required_channel] fails on it. *)
Theorem load_config_returns_array w (REQUIRED_CHANNEL : string) :
  load_config w (fresh_store REQUIRED_CHANNEL (Holds (JArr [JStr "required_channel"])))
  = (Loaded (JArr [JStr "required_channel"]),
     fresh_store REQUIRED_CHANNEL (Holds (JArr [JStr "required_channel"]))) /\
  (forall m, JArr [JStr "required_channel"] <> JObj m) /\
  py_setitem "required_channel" (JStr REQUIRED_CHANNEL) (JArr [JStr "required_channel"])
  = None /\
  (Commands.get_required_channel REQUIRED_CHANNEL w
     (fresh_store REQUIRED_CHANNEL (Holds (JArr [JStr "required_channel"])))).1
  = Raise (Exn OtherException "'list' object has no attribute 'get'").
Proof.
  assert (load_config w (fresh_store REQUIRED_CHANNEL (Holds (JArr [JStr "required_channel"])))
          = (Loaded (JArr [JStr "required_channel"]),
             fresh_store REQUIRED_CHANNEL (Holds (JArr [JStr "required_channel"])))) as Hload.
  { unfold load_config, fresh_store. cbn [config_file DEFAULT_CONFIG].
    rewrite map_to_list_singleton. reflexivity. }
  split; [exact Hload |]. split; [done |]. split; [reflexivity |].
  unfold Commands.get_required_channel. rewrite Hload. reflexivity.
Qed.

End ConfigClaims.

(** ** Admin gate of [/setchannel] *)

Section SetChannel.
Import Config Bot.

(** C9.  A run of [set_channel_command] changes the store (the file or
    [DEFAULT_CONFIG]) only if the sender is in [ADMIN_IDS] and the first
    argument, stripped, starts with ["@"]; a sender outside [ADMIN_IDS]
    leaves the store as it is and is answered with the permission-denied
    text only; so do a call without arguments and one whose argument does
    not start with ["@"]. *)
Theorem set_channel_command_gate (ADMIN_IDS : list Z) (api : platform)
    (w_load w_save : write_outcome) (st : store) (user_id : Z) (args : list string)
    (st' : store) (acts : list action) (fin : completion) :
  set_channel_command ADMIN_IDS api w_load w_save st user_id args = (st', acts, fin) ->
  (st' <> st ->
     user_id ∈ ADMIN_IDS /\
     exists arg0 rest, args = arg0 :: rest /\
       PyStr.startswith "@" (PyStr.strip arg0) = true /\
       (PyStr.no_space arg0 = true -> PyStr.startswith "@" arg0 = true)) /\
  (user_id ∉ ADMIN_IDS -> st' = st /\ acts = [ReplyText denied_text]) /\
  (args = [] -> st' = st) /\
  (forall arg0 rest, args = arg0 :: rest ->
     PyStr.startswith "@" (PyStr.strip arg0) = false -> st' = st).
Proof.
  unfold set_channel_command. intros Hrun.
  case_bool_decide as Hadmin; cbn [negb] in Hrun.
  - destruct args as [|arg0 rest].
    + injection Hrun as <- <- <-. repeat split; try done.
    + destruct (PyStr.startswith "@" (PyStr.strip arg0)) eqn:Hat; cbn [negb] in Hrun.
      * split; [| split; [done | split; [done |]]].
        -- intros _. split; [done |]. exists arg0, rest. repeat split; try done.
           intros Hw. by rewrite strip_no_space in Hat.
        -- intros a r [= -> ->]. congruence.
      * injection Hrun as <- <- <-. repeat split; try done.
  - injection Hrun as <- <- <-. repeat split; try done.
Qed.

Lemma set_channel_command_gate_witness :
  set_channel_command [1001] (fun _ => Ok ()) Written Written
    (fresh_store "@channel" Missing) 2002 ["@foo"]
  = (fresh_store "@channel" Missing, [ReplyText denied_text], Returned) /\
  (2002 ∉ [1001] ->
   fresh_store "@channel" Missing = fresh_store "@channel" Missing /\
   [ReplyText denied_text] = [ReplyText denied_text]).
Proof.
  assert (set_channel_command [1001] (fun _ => Ok ()) Written Written
            (fresh_store "@channel" Missing) 2002 ["@foo"]
          = (fresh_store "@channel" Missing, [ReplyText denied_text], Returned)) as Hrun
    by reflexivity.
  split; [exact Hrun |].
  exact (proj1 (proj2 (set_channel_command_gate _ _ _ _ _ _ _ _ _ _ Hrun))).
Defined.

(** An admin's [/setchannel] writes the channel to the file. *)
Lemma set_channel_command_sets (ADMIN_IDS : list Z) (api : platform) (st : store)
    (user_id : Z) (arg0 : string) (rest : list string) :
  user_id ∈ ADMIN_IDS ->
  PyStr.startswith "@" (PyStr.strip arg0) = true ->
  (forall v, config_file st = Holds v -> exists c, v = JObj c) ->
  exists c, config_file (set_channel_command ADMIN_IDS api Written Written st user_id
                           (arg0 :: rest)).1.1 = Holds (JObj c) /\
    c !! "required_channel" = Some (JStr (PyStr.strip arg0)).
Proof.
  intros Hadmin Hat Hobj. unfold set_channel_command.
  rewrite bool_decide_eq_true_2 by done. cbn [negb]. rewrite Hat. cbn [negb].
  unfold load_config. destruct (config_file st) as [| |v] eqn:Hf; simpl.
  - eexists; split; [done |]. apply lookup_insert_eq.
  - eexists; split; [done |]. apply lookup_insert_eq.
  - destruct (Hobj v eq_refl) as [c ->]. rewrite backfill_dict. simpl.
    eexists; split; [done |]. apply lookup_insert_eq.
Qed.

(** The assignment in [set_channel_command] reaches [DEFAULT_CONFIG] when
    [load_config] handed out the shared dictionary: with no file and a
    failing write, the channel is set in [DEFAULT_CONFIG] alone. *)
Lemma set_channel_command_writes_default :
  (set_channel_command [1001] (fun _ => Ok ()) OpenFailed OpenFailed
     (fresh_store "@channel" Missing) 1001 ["@foo"]).1.1
  = Store Missing {["required_channel" := JStr "@foo"]}.
Proof.
  vm_compute. reflexivity.
Qed.

(** From then on that channel is what [load_config] fills into a stored
    dictionary without the key. *)
Example default_follows_set_channel :
  (load_config Written
     (Store (Holds (JObj ∅))
        (DEFAULT_CONFIG
           (set_channel_command [1001] (fun _ => Ok ()) OpenFailed OpenFailed
              (fresh_store "@channel" Missing) 1001 ["@foo"]).1.1))).1
  = Loaded (JObj {["required_channel" := JStr "@foo"]}).
Proof. vm_compute. reflexivity. Qed.

(** [DEFAULT_CONFIG] keeps exactly the key [required_channel]. *)
Lemma set_channel_command_default_dom (ADMIN_IDS : list Z) (api : platform)
    (w_load w_save : write_outcome) (st : store) (user_id : Z) (args : list string) :
  dom (DEFAULT_CONFIG st) = {["required_channel"]} ->
  dom (DEFAULT_CONFIG (set_channel_command ADMIN_IDS api w_load w_save st user_id args).1.1)
  = {["required_channel"]}.
Proof.
  intros Hdom. unfold set_channel_command.
  case_bool_decide; cbn [negb]; [| done].
  destruct args as [|arg0 rest]; [done |].
  destruct (PyStr.startswith "@" (PyStr.strip arg0)); cbn [negb]; [| done].
  unfold load_config.
  destruct (config_file st) as [| |v]; simpl.
  - destruct w_load, w_save; simpl; rewrite dom_insert_L, Hdom; set_solver.
  - destruct w_save; simpl; rewrite dom_insert_L, Hdom; set_solver.
  - destruct (backfill _ v) as [v'|]; simpl.
    + destruct (py_setitem _ _ v'); simpl; [by destruct w_save | done].
    + destruct w_save; simpl; rewrite dom_insert_L, Hdom; set_solver.
Qed.

End SetChannel.

(** ** Sessions *)

Section Sessions.
Import Bot.

(** The buttons built by [handle_message] carry the keys of [FORMATS], and
    [format_button] reads each key back from the callback data. *)
Lemma keyboard_round_trip :
  Forall (fun kv => PyStr.split "_" ("format_" +:+ kv.1) !! 1%nat = Some kv.1) FORMATS.
Proof. repeat constructor. Qed.

(** C5.  When [query.answer()] succeeds and the callback data carries the
    format key [f]: after [handle_message] has accepted a URL for user [u],
    [format_button] leaves exactly that URL and [f] in the session of [u],
    and the download it starts is for them; with no session for [u],
    [format_button] shows the session-expired text, leaves the table as it
    is and starts no download. *)
Theorem session_round_trip (api : platform) (sessions : user_sessions) (u : Z)
    (message_text data f : string) :
  api AnswerQuery = Ok () ->
  PyStr.split "_" data !! 1%nat = Some f ->
  (PyStr.contains "youtube.com" (PyStr.strip message_text)
   || PyStr.contains "youtu.be" (PyStr.strip message_text) = true ->
   let sessions1 := (handle_message api sessions u message_text).1.1 in
   let r := format_button api sessions1 u data in
   r.1.1 !! u = Some (Session (PyStr.strip message_text) (Some f)) /\
   (forall a, a ∈ r.1.2 -> is_create_task a = true ->
      a = CreateTask u (PyStr.strip message_text) f) /\
   (r.2 = Returned -> CreateTask u (PyStr.strip message_text) f ∈ r.1.2)) /\
  (sessions !! u = None ->
   format_button api sessions u data
   = (sessions,
      [AnswerQuery; EditQueryText "Session expired. Please send the URL again."],
      finish api (EditQueryText "Session expired. Please send the URL again."))).
Proof.
  intros Hanswer Hdata. split.
  - intros Hurl. unfold handle_message. rewrite Hurl. cbn [negb fst snd].
    unfold format_button. rewrite Hanswer, Hdata, lookup_insert_eq. cbn [url].
    destruct (api (EditQueryText _)) as [[]|e]; cbn [fst snd].
    + split; [apply lookup_insert_eq |]. split.
      * intros a Ha Hk. by list_cases Ha.
      * intros _. set_solver.
    + split; [apply lookup_insert_eq |]. split.
      * intros a Ha Hk. by list_cases Ha.
      * done.
  - intros Hnone. unfold format_button. by rewrite Hanswer, Hdata, Hnone.
Qed.

Lemma session_round_trip_witness :
  Samples.accepting AnswerQuery = Ok () /\
  PyStr.split "_" "format_mp3" !! 1%nat = Some "mp3" /\
  (format_button Samples.accepting
     (handle_message Samples.accepting ∅ 7 " https://youtu.be/abc123 ").1.1 7
     "format_mp3").1.1 !! 7
  = Some (Session "https://youtu.be/abc123" (Some "mp3")) /\
  format_button Samples.accepting ∅ 7 "format_mp3"
  = (∅,
     [AnswerQuery; EditQueryText "Session expired. Please send the URL again."],
     Returned).
Proof.
  split; [reflexivity |]. split; [reflexivity |].
  destruct (session_round_trip Samples.accepting ∅ 7 " https://youtu.be/abc123 "
              "format_mp3" "mp3" eq_refl eq_refl) as [Hput Hnone].
  split.
  - exact (proj1 (Hput eq_refl)).
  - exact (Hnone eq_refl).
Defined.

(** The example of the specification: a URL, then the button "MP3 Audio". *)
Example url_then_mp3 :
  format_button Samples.accepting
    (handle_message Samples.accepting ∅ 7 "https://youtu.be/abc123").1.1 7 "format_mp3"
  = ({[7 := Session "https://youtu.be/abc123" (Some "mp3")]},
     [AnswerQuery;
      EditQueryText ("Selected: MP3 Audio" +:+ PyStr.nl +:+ "Starting download...");
      CreateTask 7 "https://youtu.be/abc123" "mp3"],
     Returned).
Proof. vm_compute. reflexivity. Qed.

End Sessions.

(** ** Download orchestration *)

Section Download.
Import Bot.

Implicit Types (env : download_env) (sessions : user_sessions).

(** What the [try] block sends, if anything, is the one upload chosen by
    [send_action] for the final file name. *)
Lemma try_block_sends env (user_id : Z) (url format_key : string) :
  (try_block env user_id url format_key).1 = [] \/
  exists temp_dir info_title filename,
    make_tempdir env = Ok temp_dir /\
    ydl_download env (build_opts temp_dir format_key) url = Ok (info_title, filename) /\
    open_file env (final_filename env format_key filename) = Ok () /\
    (try_block env user_id url format_key).1
    = [send_action user_id (final_filename env format_key filename)
         (default "video" info_title)].
Proof.
  unfold try_block.
  destruct (make_tempdir env) as [temp_dir|e] eqn:Ht; [| by left].
  destruct (ydl_download env _ url) as [[info_title filename]|e] eqn:Hy; [| by left].
  destruct (open_file env _) as [[]|e] eqn:Ho; [| by left].
  right. by exists temp_dir, info_title, filename.
Qed.

(** The calls of a run: those of the [try] block, then at most the error
    message. *)
Lemma process_download_calls env sessions (user_id : Z) (url format_key : string) :
  exists tail,
    (process_download env sessions user_id url format_key).1.2
    = (try_block env user_id url format_key).1 ++ tail /\
    Forall (fun a => is_file_send a = false) tail.
Proof.
  unfold process_download.
  destruct (try_block env user_id url format_key) as [sent r]. cbn [fst].
  destruct r as [[]|e]; cbn [fst snd].
  - exists []. by rewrite app_nil_r.
  - destruct (is_Exception e); cbn [fst snd].
    + destruct (bot_api env _) as [[]|e']; [| destruct (is_Exception e')];
        cbn [fst snd]; eexists; (split; [done |]); by repeat constructor.
    + exists []. by rewrite app_nil_r.
Qed.

(** C1.  A run of [process_download] either returns, and then
    [user_sessions] has no entry for the user, or is left by an exception
    that is outside [Exception]; success, [DownloadError] and every other
    [Exception] all end in the first case. *)
Theorem process_download_removes_session env sessions (user_id : Z)
    (url format_key : string) :
  match process_download env sessions user_id url format_key with
  | (sessions', _, Returned) => sessions' !! user_id = None
  | (_, _, Propagated e) => is_Exception e = false
  end.
Proof.
  unfold process_download.
  destruct (try_block env user_id url format_key) as [sent r].
  destruct r as [[]|e].
  - apply lookup_delete_eq.
  - destruct (is_Exception e) eqn:He; [| done].
    destruct (bot_api env _) as [[]|e']; [apply lookup_delete_eq |].
    destruct (is_Exception e') eqn:He'; [apply lookup_delete_eq | done].
Qed.

Lemma filter_file_send_tail (l tail : list action) :
  Forall (fun a => is_file_send a = false) tail ->
  List.filter is_file_send (l ++ tail) = List.filter is_file_send l.
Proof.
  intros Htail. rewrite List.filter_app.
  assert (List.filter is_file_send tail = []) as ->; [| by rewrite app_nil_r].
  induction Htail as [|a tail Ha _ IH]; simpl; [done | by rewrite Ha].
Qed.

Lemma send_action_is_file_send (user_id : Z) (filename title : string) :
  is_file_send (send_action user_id filename title) = true.
Proof. unfold send_action. by destruct (kind_of filename). Qed.

(** A name ending in [.mp3] ends in none of the video extensions. *)
Lemma endswith_mp3_not_video (filename : string) :
  PyStr.endswith ".mp3" filename = true ->
  existsb (fun ext => PyStr.endswith ext filename) [".mp4"; ".webm"; ".mkv"] = false.
Proof.
  unfold PyStr.endswith. intros [t Ht]%startswith_inv.
  cbn [existsb]. rewrite Ht. reflexivity.
Qed.

(** The branch of the [endswith] chain, read off the file name. *)
Lemma send_action_by_extension (user_id : Z) (filename title : string) :
  (PyStr.endswith ".mp3" filename = true ->
   send_action user_id filename title = SendAudio user_id filename title) /\
  (PyStr.endswith ".mp4" filename = true \/ PyStr.endswith ".webm" filename = true \/
   PyStr.endswith ".mkv" filename = true ->
   send_action user_id filename title = SendVideo user_id filename title) /\
  (PyStr.endswith ".mp3" filename = false -> PyStr.endswith ".mp4" filename = false ->
   PyStr.endswith ".webm" filename = false -> PyStr.endswith ".mkv" filename = false ->
   send_action user_id filename title = SendDocument user_id filename title).
Proof.
  unfold send_action, kind_of. repeat split.
  - by intros ->.
  - intros Hvideo.
    destruct (PyStr.endswith ".mp3" filename) eqn:Hmp3.
    + apply endswith_mp3_not_video in Hmp3. cbn [existsb] in Hmp3.
      destruct Hvideo as [Hv|[Hv|Hv]]; rewrite Hv in Hmp3;
        rewrite ?orb_true_r in Hmp3; done.
    + cbn [existsb].
      destruct Hvideo as [Hv|[Hv|Hv]]; rewrite Hv; by rewrite ?orb_true_r.
  - intros -> Hmp4 Hwebm Hmkv. cbn [existsb]. by rewrite Hmp4, Hwebm, Hmkv.
Qed.

(** C4.  No run uploads more than one file.  A run whose download returns
    a file name and whose final file [final] can be opened uploads exactly
    once, and the extension of [final] alone selects the call: [send_audio]
    when it ends in [.mp3]; [send_video] when it ends in [.mp4], [.webm] or
    [.mkv]; [send_document] in every other case.  The file sent is [final]
    and the title or caption is the title of the metadata. *)
Theorem upload_kind_by_extension env sessions (user_id : Z) (url format_key : string) :
  (length (List.filter is_file_send
             (process_download env sessions user_id url format_key).1.2) <= 1)%nat /\
  (forall (temp_dir : string) (info_title : option string) (filename final title : string),
     make_tempdir env = Ok temp_dir ->
     ydl_download env (build_opts temp_dir format_key) url = Ok (info_title, filename) ->
     final = final_filename env format_key filename ->
     title = default "video" info_title ->
     open_file env final = Ok () ->
     (PyStr.endswith ".mp3" final = true ->
      List.filter is_file_send (process_download env sessions user_id url format_key).1.2
      = [SendAudio user_id final title]) /\
     (PyStr.endswith ".mp4" final = true \/ PyStr.endswith ".webm" final = true \/
      PyStr.endswith ".mkv" final = true ->
      List.filter is_file_send (process_download env sessions user_id url format_key).1.2
      = [SendVideo user_id final title]) /\
     (PyStr.endswith ".mp3" final = false -> PyStr.endswith ".mp4" final = false ->
      PyStr.endswith ".webm" final = false -> PyStr.endswith ".mkv" final = false ->
      List.filter is_file_send (process_download env sessions user_id url format_key).1.2
      = [SendDocument user_id final title])).
Proof.
  destruct (process_download_calls env sessions user_id url format_key)
    as (tail & -> & Htail).
  rewrite filter_file_send_tail by done. split.
  - destruct (try_block_sends env user_id url format_key)
      as [-> | (temp_dir & info_title & filename & _ & _ & _ & ->)]; [simpl; lia |].
    cbn [List.filter]. rewrite send_action_is_file_send. simpl. lia.
  - intros temp_dir info_title filename final title Ht Hy -> -> Ho.
    assert (List.filter is_file_send (try_block env user_id url format_key).1
            = [send_action user_id (final_filename env format_key filename)
                 (default "video" info_title)]) as ->.
    { unfold try_block. rewrite Ht, Hy, Ho. cbn [fst List.filter].
      by rewrite send_action_is_file_send. }
    destruct (send_action_by_extension user_id (final_filename env format_key filename)
                (default "video" info_title)) as (Haudio & Hvideo & Hdocument).
    split; [| split].
    + intros Hmp3. by rewrite Haudio.
    + intros Hext. by rewrite Hvideo.
    + intros Hmp3 Hmp4 Hwebm Hmkv. by rewrite Hdocument.
Qed.

(** C3.  In a run with format key ["mp3"] whose download returns
    [filename]: the [.mp3] sibling of [filename] is [filename] with
    everything after its last dot replaced by ["mp3"], or with [".mp3"]
    added when it has no dot.  When that sibling exists, it is the final file
    name, it ends in [.mp3], every upload of the run is [send_audio] of the
    sibling, and that upload is made as soon as the file can be opened. *)
Theorem mp3_sibling_is_sent env sessions (user_id : Z) (url temp_dir : string)
    (info_title : option string) (filename sibling : string) :
  make_tempdir env = Ok temp_dir ->
  ydl_download env (build_opts temp_dir "mp3") url = Ok (info_title, filename) ->
  (exists stem ext, filename = stem +:+ "." +:+ ext /\ Commands.occurs "." ext = false /\
                    sibling = stem +:+ ".mp3") \/
  (Commands.occurs "." filename = false /\ sibling = filename +:+ ".mp3") ->
  path_exists env sibling = true ->
  final_filename env "mp3" filename = sibling /\
  PyStr.endswith ".mp3" sibling = true /\
  (forall a, a ∈ (process_download env sessions user_id url "mp3").1.2 ->
     is_file_send a = true ->
     a = SendAudio user_id sibling (default "video" info_title)) /\
  (open_file env sibling = Ok () ->
   SendAudio user_id sibling (default "video" info_title)
   ∈ (process_download env sessions user_id url "mp3").1.2).
Proof.
  intros Ht Hy Hsibling Hex.
  assert (mp3_filename filename = sibling) as Hname.
  { unfold mp3_filename, PyStr.rsplit1_head.
    destruct Hsibling as [(stem & ext & -> & Hext & ->) | [Hdot ->]].
    - change (stem +:+ "." +:+ ext) with (stem +:+ String "."%char ext).
      by rewrite (before_last_app "."%char stem ext).
    - by rewrite before_last_none. }
  assert (final_filename env "mp3" filename = sibling) as Hfinal.
  { unfold final_filename. rewrite decide_True by done. by rewrite Hname, Hex. }
  assert (PyStr.endswith ".mp3" sibling = true) as Hends.
  { rewrite <- Hname. apply endswith_app. }
  assert (send_action user_id sibling (default "video" info_title)
          = SendAudio user_id sibling (default "video" info_title)) as Hsend.
  { unfold send_action, kind_of. by rewrite Hends. }
  destruct (process_download_calls env sessions user_id url "mp3") as (tail & -> & Htail).
  unfold try_block. rewrite Ht, Hy, Hfinal, Hsend.
  repeat split; try done.
  - intros a Ha Hfile. apply elem_of_app in Ha as [Ha|Ha].
    + destruct (open_file env _) as [[]|e]; cbn [fst] in Ha; by list_cases Ha.
    + rewrite Forall_forall in Htail. apply Htail in Ha. congruence.
  - intros ->. cbn [fst]. apply elem_of_app. left. by constructor.
Qed.

Lemma mp3_sibling_is_sent_witness :
  make_tempdir Samples.extracted = Ok "/tmp/tmpk3" /\
  ydl_download Samples.extracted (build_opts "/tmp/tmpk3" "mp3") "https://youtu.be/abc123"
  = Ok (Some "Song", "/tmp/tmpk3/Song.webm") /\
  path_exists Samples.extracted "/tmp/tmpk3/Song.mp3" = true /\
  final_filename Samples.extracted "mp3" "/tmp/tmpk3/Song.webm" = "/tmp/tmpk3/Song.mp3" /\
  SendAudio 7 "/tmp/tmpk3/Song.mp3" "Song"
  ∈ (process_download Samples.extracted {[7 := Session "https://youtu.be/abc123" (Some "mp3")]}
       7 "https://youtu.be/abc123" "mp3").1.2.
Proof.
  assert ((exists stem ext, "/tmp/tmpk3/Song.webm" = stem +:+ "." +:+ ext /\
                            Commands.occurs "." ext = false /\
                            "/tmp/tmpk3/Song.mp3" = stem +:+ ".mp3") \/
          (Commands.occurs "." "/tmp/tmpk3/Song.webm" = false /\
           "/tmp/tmpk3/Song.mp3" = "/tmp/tmpk3/Song.webm" +:+ ".mp3")) as Hsibling.
  { left. exists "/tmp/tmpk3/Song", "webm". split; [reflexivity |]. split; reflexivity. }
  split; [reflexivity |]. split; [reflexivity |]. split; [reflexivity |].
  destruct (mp3_sibling_is_sent Samples.extracted
              {[7 := Session "https://youtu.be/abc123" (Some "mp3")]} 7
              "https://youtu.be/abc123" "/tmp/tmpk3" (Some "Song") "/tmp/tmpk3/Song.webm"
              "/tmp/tmpk3/Song.mp3" eq_refl eq_refl Hsibling eq_refl)
    as (Hfinal & _ & _ & Hsent).
  split; [exact Hfinal | exact (Hsent eq_refl)].
Defined.

Lemma process_download_removes_session_witness :
  (process_download Samples.refused {[7 := Session "https://youtu.be/abc123" (Some "best")]}
     7 "https://youtu.be/abc123" "best").1.1 !! 7 = None.
Proof.
  exact (process_download_removes_session Samples.refused
           {[7 := Session "https://youtu.be/abc123" (Some "best")]}
           7 "https://youtu.be/abc123" "best").
Defined.

Lemma upload_kind_by_extension_witness :
  make_tempdir Samples.extracted = Ok "/tmp/tmpk3" /\
  ydl_download Samples.extracted (build_opts "/tmp/tmpk3" "best") "https://youtu.be/abc123"
  = Ok (Some "Song", "/tmp/tmpk3/Song.webm") /\
  open_file Samples.extracted "/tmp/tmpk3/Song.webm" = Ok () /\
  PyStr.endswith ".webm" "/tmp/tmpk3/Song.webm" = true /\
  List.filter is_file_send
    (process_download Samples.extracted ∅ 7 "https://youtu.be/abc123" "best").1.2
  = [SendVideo 7 "/tmp/tmpk3/Song.webm" "Song"].
Proof.
  split; [reflexivity |]. split; [reflexivity |]. split; [reflexivity |].
  split; [reflexivity |].
  exact (proj1 (proj2
    (proj2 (upload_kind_by_extension Samples.extracted ∅ 7 "https://youtu.be/abc123" "best")
       "/tmp/tmpk3" (Some "Song") "/tmp/tmpk3/Song.webm" "/tmp/tmpk3/Song.webm" "Song"
       eq_refl eq_refl eq_refl eq_refl eq_refl))
    (or_intror (or_introl eq_refl))).
Defined.

(** The three ways a run can end. *)
Example run_extracted :
  process_download Samples.extracted {[7 := Session "https://youtu.be/abc123" (Some "mp3")]}
    7 "https://youtu.be/abc123" "mp3"
  = (∅, [SendAudio 7 "/tmp/tmpk3/Song.mp3" "Song"], Returned).
Proof. vm_compute. reflexivity. Qed.

Example run_refused :
  process_download Samples.refused {[7 := Session "https://youtu.be/abc123" (Some "best")]}
    7 "https://youtu.be/abc123" "best"
  = (∅,
     [SendMessage 7 ("âŒ Download failed. The video may be restricted or unavailable."
                     +:+ PyStr.nl +:+ "Please try again with a different video.")],
     Returned).
Proof. vm_compute. reflexivity. Qed.

Example run_cancelled :
  process_download Samples.cancelled {[7 := Session "https://youtu.be/abc123" (Some "best")]}
    7 "https://youtu.be/abc123" "best"
  = ({[7 := Session "https://youtu.be/abc123" (Some "best")]},
     [SendVideo 7 "/tmp/tmpk3/clip.mkv" "video"],
     Propagated (Exn NonException "CancelledError")).
Proof. vm_compute. reflexivity. Qed.

End Download.

(** ** Progress reporter *)

Section Hook.
Import Progress.
Context `{PyFloat} `{PyStr.PyMemory}.

Implicit Types (h : ProgressHook) (d : event) (t : Q) (api : result Z).

Local Open Scope Q_scope.

(** The rate limit: a [downloading] event less than two seconds after
    [last_update] changes nothing. *)
Lemma call_suppressed h d t api :
  status d = "downloading" -> t - last_update h < 2 ->
  __call__ h d t api = (h, [], Returned).
Proof.
  intros Hd Hlt. unfold __call__. rewrite decide_True by done.
  destruct (Qlt_le_dec _ _) as [_|Hle]; [done | lra].
Qed.

(** Past the rate limit with an unchanged text: only the time stamp moves. *)
Lemma call_unchanged h d t api :
  status d = "downloading" -> 2 <= t - last_update h ->
  render d = last_progress_text h ->
  __call__ h d t api
  = (Hook (user_id h) t (message_id h) (last_progress_text h), [], Returned).
Proof.
  intros Hd Hle Htext. unfold __call__. rewrite decide_True by done.
  destruct (Qlt_le_dec _ _) as [Hlt|_]; [lra |].
  by rewrite decide_False by (by intros Hne).
Qed.

(** Past the rate limit with a new text: one call to the platform, a send
    while no message is recorded and an edit afterwards. *)
Lemma call_emits h d t api :
  status d = "downloading" -> 2 <= t - last_update h ->
  render d <> last_progress_text h ->
  exists a m,
    __call__ h d t api = (Hook (user_id h) t m (render d), [a], swallow api) /\
    text_of a = render d /\
    a = match message_id h with
        | None => SendMessage (user_id h) (render d)
        | Some i => EditMessageText (user_id h) i (render d)
        end.
Proof.
  intros Hd Hle Htext. unfold __call__. rewrite decide_True by done.
  destruct (Qlt_le_dec _ _) as [Hlt|_]; [lra |].
  rewrite decide_True by done.
  destruct (message_id h) as [i|]; eexists _, _; repeat split; done.
Qed.

(** Nothing but an exception outside [Exception], raised by the platform,
    ever leaves the hook. *)
Lemma call_completion h d t api (e : exn) :
  (__call__ h d t api).2 = Propagated e -> api = Raise e /\ is_Exception e = false.
Proof.
  assert (swallow api = Propagated e -> api = Raise e /\ is_Exception e = false) as Hsw.
  { destruct api as [m|e']; simpl; [done |].
    destruct (is_Exception e') eqn:He; [done |]. by intros [= <-]. }
  unfold __call__. destruct (message_id h) as [i|]; repeat case_decide;
    try destruct (Qlt_le_dec _ _); cbn [snd]; done.
Qed.

(** What a run over [downloading] events guarantees about its log, with
    respect to the state it starts from. *)
Lemma run_invariant h (ds : list delivery) :
  Forall (fun x => status (dl_event x) = "downloading") ds ->
  StronglySorted spaced (run h ds).2 /\
  Sorted text_changes (run h ds).2 /\
  Forall (fun e => last_update h + 2 <= e.1) (run h ds).2 /\
  match (run h ds).2 with
  | [] => True
  | e :: _ => text_of e.2 <> last_progress_text h
  end.
Proof.
  intros Hds. revert h. induction Hds as [|x ds Hx _ IH]; intros h.
  { simpl. repeat split; constructor. }
  cbn [run].
  destruct (Qlt_le_dec (dl_time x - last_update h) 2) as [Hlt|Hle].
  { rewrite call_suppressed by done.
    destruct (run h ds) as [h'' log] eqn:Hrun. cbn [snd map app].
    specialize (IH h). by rewrite Hrun in IH. }
  destruct (decide (render (dl_event x) = last_progress_text h)) as [Hsame|Hnew].
  - rewrite call_unchanged by done.
    specialize (IH (Hook (user_id h) (dl_time x) (message_id h) (last_progress_text h))).
    destruct (run _ ds) as [h'' log]. cbn [snd map app last_update last_progress_text] in *.
    destruct IH as (Hsp & Htx & Hlow & Hhd). repeat split; try done.
    eapply Forall_impl; [exact Hlow |]. intros e He. cbn beta in *. lra.
  - destruct (call_emits h (dl_event x) (dl_time x) (dl_api x))
      as (a & m & -> & Ha & _); [done.. |].
    specialize (IH (Hook (user_id h) (dl_time x) m (render (dl_event x)))).
    destruct (run _ ds) as [h'' log]. cbn [snd map app last_update last_progress_text] in *.
    destruct IH as (Hsp & Htx & Hlow & Hhd). repeat split.
    + constructor; [done |]. eapply Forall_impl; [exact Hlow |]. by intros e He.
    + constructor; [done |]. destruct log as [|e log]; constructor.
      unfold text_changes. cbn [snd]. rewrite Ha. by intros Heq.
    + constructor; [cbn [fst]; lra |].
      eapply Forall_impl; [exact Hlow |]. intros e He. cbn beta in *. lra.
    + cbn [snd]. by rewrite Ha.
Qed.

(** C2.  For every sequence of [downloading] events delivered to a hook,
    any two calls the hook makes to the platform are at least two seconds
    apart, and no call carries the same text as the call before it. *)
Theorem progress_rate_limit h (ds : list delivery) :
  Forall (fun x => status (dl_event x) = "downloading") ds ->
  StronglySorted spaced (run h ds).2 /\ Sorted text_changes (run h ds).2.
Proof.
  intros Hds. destruct (run_invariant h ds Hds) as (Hsp & Htx & _). done.
Qed.

(** C6.  When [float] rejects the percent string, the text rendered is the
    plain display, "Downloading..." with the percent string, the speed and
    the ETA on lines of their own and no bar, for every speed and ETA; a
    [downloading] event carrying that percent past the rate limit makes the
    hook send, or edit into its message, exactly that text; and rendering
    raises nothing: all that can leave the hook is an exception outside
    [Exception] raised by the call to the platform. *)
Theorem percent_parse_failure_falls_back (percent : string) :
  float_of_str (PyStr.replace "%" "" percent) = None ->
  (forall speed eta,
     progress_text percent speed eta
     = "ðŸ“¥ Downloading..." +:+ PyStr.nl +:+ "ðŸ“Š Progress: " +:+ percent +:+ PyStr.nl
       +:+ "âš¡ Speed: " +:+ speed +:+ PyStr.nl +:+ "â± ETA: " +:+ eta) /\
  (forall h d t api,
     status d = "downloading" -> _percent_str d = Some percent ->
     2 <= t - last_update h -> render d <> last_progress_text h ->
     exists text m,
       text = "ðŸ“¥ Downloading..." +:+ PyStr.nl +:+ "ðŸ“Š Progress: " +:+ percent +:+ PyStr.nl
              +:+ "âš¡ Speed: " +:+ default "N/A" (_speed_str d) +:+ PyStr.nl
              +:+ "â± ETA: " +:+ default "N/A" (_eta_str d) /\
       __call__ h d t api
       = (Hook (user_id h) t m text,
          [match message_id h with
           | None => SendMessage (user_id h) text
           | Some i => EditMessageText (user_id h) i text
           end],
          swallow api)) /\
  (forall h d t api e,
     (__call__ h d t api).2 = Propagated e -> api = Raise e /\ is_Exception e = false).
Proof.
  intros Hfail.
  assert (forall speed eta, progress_text percent speed eta = fallback_text percent speed eta)
    as Htext.
  { intros speed eta. unfold progress_text, bar_text. by rewrite Hfail. }
  split; [exact Htext |]. split.
  - intros h d t api Hd Hp Hle Hnew.
    destruct (call_emits h d t api) as (a & m & Hcall & _ & Ha); [done.. |].
    assert (render d = fallback_text percent (default "N/A" (_speed_str d))
                         (default "N/A" (_eta_str d))) as Hrender.
    { unfold render. rewrite Hp. apply Htext. }
    rewrite Hrender in Hcall, Ha. subst a.
    eexists _, m. split; [reflexivity |].
    rewrite Hcall. reflexivity.
  - intros h d t api e. apply call_completion.
Qed.

(** The text of an event is never empty, so the first event past the rate
    limit is always sent. *)
Lemma render_not_empty d : render d <> "".
Proof.
  unfold render, progress_text, bar_text, PyStr.mul.
  destruct (float_of_str _) as [x|]; [| done]. cbn.
  destruct (floordiv x 5) as [q|]; [| done]. cbn.
  destruct (int_of_float q) as [n|]; [| done]. cbn.
  destruct (PyStr.fits _ n); [| done]. cbn.
  by destruct (PyStr.fits _ (20 - n)).
Qed.

Lemma call_first (uid : Z) d t (m : Z) :
  status d = "downloading" -> 2 <= t ->
  __call__ (__init__ uid) d t (Ok m)
  = (Hook uid t (Some m) (render d), [SendMessage uid (render d)], Returned).
Proof.
  intros Hd Hle. unfold __call__. rewrite decide_True by done.
  destruct (Qlt_le_dec _ _) as [Hlt|_]; [cbn [__init__ last_update] in Hlt; lra |].
  rewrite decide_True by apply render_not_empty. done.
Qed.

(** Two events with the same percent string and the same text have the same
    speed and ETA lines. *)
Lemma progress_text_speed (percent speed1 eta1 speed2 eta2 : string) :
  progress_text percent speed1 eta1 = progress_text percent speed2 eta2 ->
  speed1 +:+ PyStr.nl +:+ "â± ETA: " +:+ eta1 = speed2 +:+ PyStr.nl +:+ "â± ETA: " +:+ eta2.
Proof.
  assert (fallback_text percent speed1 eta1 = fallback_text percent speed2 eta2 ->
          speed1 +:+ PyStr.nl +:+ "â± ETA: " +:+ eta1
          = speed2 +:+ PyStr.nl +:+ "â± ETA: " +:+ eta2) as Hfallback.
  { unfold fallback_text. intros Heq. by repeat apply (inj (String.app _)) in Heq. }
  unfold progress_text, bar_text, PyStr.mul.
  destruct (float_of_str _) as [x|]; cbn; [| done].
  destruct (floordiv x 5) as [q|]; cbn; [| done].
  destruct (int_of_float q) as [n|]; cbn; [| done].
  destruct (PyStr.fits _ n); cbn; [| done].
  destruct (PyStr.fits _ (20 - n)); cbn; [| done].
  intros Heq. injection Heq as Heq.
  by repeat apply (inj (String.app _)) in Heq.
Qed.

Lemma half_faster_is_new : render Samples.half_faster <> render Samples.half.
Proof.
  unfold render. cbn [Samples.half Samples.half_faster _percent_str _speed_str _eta_str default].
  intros Heq%progress_text_speed. vm_compute in Heq. discriminate.
Qed.

(** C10.  A [downloading] event processed two seconds or more after
    [last_update] sets [last_update] to the current time, whether or not a
    message goes out: with an unchanged text the hook makes no call at all,
    and a failing call does not undo the update; every [downloading] event
    less than two seconds later is then dropped, whatever its text.  So
    there is a run in which an event with a new text, arriving more than
    two seconds after the only message that went out, is dropped. *)
Theorem rate_limit_timestamp_advances :
  (forall h d t api,
     status d = "downloading" -> 2 <= t - last_update h ->
     last_update (__call__ h d t api).1.1 = t /\
     (render d = last_progress_text h -> (__call__ h d t api).1.2 = []) /\
     (forall d' t' api',
        status d' = "downloading" -> t' - t < 2 ->
        __call__ (__call__ h d t api).1.1 d' t' api' = ((__call__ h d t api).1.1, [], Returned))) /\
  (exists (ds : list delivery) (t0 : Q) (a : action) (d' : event) (t' : Q) (api' : result Z),
     (run (__init__ 7) ds).2 = [(t0, a)] /\
     status d' = "downloading" /\
     render d' <> text_of a /\
     t0 + 2 < t' /\
     __call__ (run (__init__ 7) ds).1 d' t' api' = ((run (__init__ 7) ds).1, [], Returned)).
Proof.
  split.
  - intros h d t api Hd Hle.
    assert (last_update (__call__ h d t api).1.1 = t) as Hlast.
    { destruct (decide (render d = last_progress_text h)) as [Hsame|Hnew].
      - by rewrite call_unchanged.
      - by destruct (call_emits h d t api) as (a & m & -> & _). }
    split; [exact Hlast |]. split.
    + intros Hsame. by rewrite call_unchanged.
    + intros d' t' api' Hd' Hlt. apply call_suppressed; [done |]. by rewrite Hlast.
  - exists [Delivery Samples.half 10 Samples.sent; Delivery Samples.half 12 Samples.sent],
      10, (SendMessage 7 (render Samples.half)), Samples.half_faster, 13, Samples.sent.
    assert (run (__init__ 7)
              [Delivery Samples.half 10 Samples.sent; Delivery Samples.half 12 Samples.sent]
            = (Hook 7 12 (Some 55%Z) (render Samples.half),
               [(10, SendMessage 7 (render Samples.half))])) as ->.
    { cbn [run dl_event dl_time dl_api]. unfold Samples.sent.
      rewrite call_first by (done || lra).
      rewrite call_unchanged by (done || (cbn [last_update]; lra)).
      done. }
    cbn [fst snd text_of].
    split; [done |]. split; [done |]. split; [apply half_faster_is_new |].
    split; [lra |].
    apply call_suppressed; [done |]. cbn [last_update]. lra.
Qed.

End Hook.

(** ** The hook on concrete events *)

Section HookRuns.
Import Progress Samples.

Local Open Scope Q_scope.

Example render_half :
  render half
  = "ðŸ“¥ Downloading: [â–ˆâ–ˆâ–ˆâ–ˆâ–ˆâ–ˆâ–ˆâ–ˆâ–ˆâ–ˆâ–‘â–‘â–‘â–‘â–‘â–‘â–‘â–‘â–‘â–‘]  50.0%" +:+ PyStr.nl
    +:+ "âš¡ Speed: 1.00MiB/s" +:+ PyStr.nl +:+ "â± ETA: 00:10".
Proof. vm_compute. reflexivity. Qed.

Example render_no_percent :
  render no_percent
  = "ðŸ“¥ Downloading..." +:+ PyStr.nl +:+ "ðŸ“Š Progress: " +:+ PyStr.nl
    +:+ "âš¡ Speed: 1.00MiB/s" +:+ PyStr.nl +:+ "â± ETA: 00:10".
Proof. vm_compute. reflexivity. Qed.

(** The first event of a download is sent as a new message. *)
Example first_call :
  __call__ (__init__ 7) half 10 sent = (shown, [SendMessage 7 (render half)], Returned).
Proof. vm_compute. reflexivity. Qed.

Lemma percent_parse_failure_falls_back_witness :
  float_of_str (PyStr.replace "%" "" "") = None /\
  progress_text "" "1.00MiB/s" "00:10"
  = "ðŸ“¥ Downloading..." +:+ PyStr.nl +:+ "ðŸ“Š Progress: " +:+ "" +:+ PyStr.nl
    +:+ "âš¡ Speed: " +:+ "1.00MiB/s" +:+ PyStr.nl +:+ "â± ETA: " +:+ "00:10".
Proof.
  split; [reflexivity |].
  exact (proj1 (percent_parse_failure_falls_back "" eq_refl) "1.00MiB/s" "00:10").
Defined.

Lemma progress_rate_limit_witness :
  Forall (fun x => status (dl_event x) = "downloading")
    [Delivery half 10 sent; Delivery half_faster 11 sent;
     Delivery half_faster 12 timed_out; Delivery no_percent 14 sent] /\
  StronglySorted spaced
    (run (__init__ 7)
       [Delivery half 10 sent; Delivery half_faster 11 sent;
        Delivery half_faster 12 timed_out; Delivery no_percent 14 sent]).2.
Proof.
  assert (Forall (fun x => status (dl_event x) = "downloading")
            [Delivery half 10 sent; Delivery half_faster 11 sent;
             Delivery half_faster 12 timed_out; Delivery no_percent 14 sent]) as Hds
    by (repeat constructor).
  split; [exact Hds |].
  exact (proj1 (progress_rate_limit (__init__ 7) _ Hds)).
Defined.

(** The log of that run: the event at 11 is dropped by the rate limit. *)
Example run_log :
  (run (__init__ 7)
     [Delivery half 10 sent; Delivery half_faster 11 sent;
      Delivery half_faster 12 timed_out; Delivery no_percent 14 sent]).2
  = [(10, SendMessage 7 (render half));
     (12, EditMessageText 7 55 (render half_faster));
     (14, EditMessageText 7 55 (render no_percent))].
Proof. vm_compute. reflexivity. Qed.

(** A message went out at 10.  The event at 12 carries the same text: the
    hook makes no call but moves [last_update] to 12.  The event at 13 has a
    new text and comes three seconds after the message, and is dropped. *)
Lemma rate_limit_timestamp_advances_witness :
  status half = "downloading" /\
  2 <= 12 - last_update shown /\
  (__call__ shown half 12 sent).1.2 = [] /\
  render half_faster <> last_progress_text shown /\
  __call__ (__call__ shown half 12 sent).1.1 half_faster 13 sent
  = ((__call__ shown half 12 sent).1.1, [], Returned).
Proof.
  assert (2 <= 12 - last_update shown) as Hle by (vm_compute; discriminate).
  destruct (proj1 rate_limit_timestamp_advances shown half 12 sent eq_refl Hle)
    as (_ & Hquiet & Hdrop).
  split; [reflexivity |]. split; [exact Hle |]. split; [exact (Hquiet eq_refl) |].
  split; [vm_compute; discriminate |].
  apply Hdrop; [reflexivity | vm_compute; reflexivity].
Defined.

End HookRuns.

(** * Further properties of the code *)

(** ** Sessions: what the two handlers touch *)

Section SessionFrame.
Import Bot.

Implicit Types (api : platform) (sessions : user_sessions).

(** X1.  [handle_message] opens a session exactly when the stripped text has
    [youtube.com] or [youtu.be] somewhere inside it: then the sender's entry
    becomes the text with no format chosen, whatever it held before, and the
    keyboard is sent; otherwise the table is unchanged and the sender is
    asked for a valid URL. *)
Theorem handle_message_accepts (api : platform) (sessions : user_sessions)
    (u : Z) (message_text : string) :
  ((exists a b, PyStr.strip message_text = a +:+ "youtube.com" +:+ b \/
                PyStr.strip message_text = a +:+ "youtu.be" +:+ b) ->
   handle_message api sessions u message_text
   = (<[u := Session (PyStr.strip message_text) None]> sessions,
      [ReplyKeyboard "Select download format:" keyboard],
      finish api (ReplyKeyboard "Select download format:" keyboard))) /\
  (~ (exists a b, PyStr.strip message_text = a +:+ "youtube.com" +:+ b \/
                  PyStr.strip message_text = a +:+ "youtu.be" +:+ b) ->
   handle_message api sessions u message_text
   = (sessions, [ReplyText "Please send a valid YouTube URL."],
      finish api (ReplyText "Please send a valid YouTube URL."))).
Proof.
  unfold handle_message.
  destruct (PyStr.contains "youtube.com" (PyStr.strip message_text)) eqn:Hcom;
    [| destruct (PyStr.contains "youtu.be" (PyStr.strip message_text)) eqn:Hbe];
    cbn [orb negb]; split; try done.
  - intros Hno. destruct Hno. apply contains_spec in Hcom as (a & b & ->). eauto.
  - intros Hno. destruct Hno. apply contains_spec in Hbe as (a & b & ->). eauto.
  - intros (a & b & [Heq|Heq]).
    + assert (PyStr.contains "youtube.com" (PyStr.strip message_text) = true) as Hc
        by (rewrite Heq; apply contains_app). congruence.
    + assert (PyStr.contains "youtu.be" (PyStr.strip message_text) = true) as Hc
        by (rewrite Heq; apply contains_app). congruence.
Qed.

(** The text arrives with a no-break space in front and a line feed
    behind; both are stripped before the URL is stored. *)
Lemma handle_message_accepts_witness :
  PyStr.strip (PyStr.bytes [194; 160]%nat +:+ "https://youtu.be/abc123" +:+ PyStr.nl)
  = "https://youtu.be/abc123" /\
  (handle_message Samples.accepting {[7 := Session "https://youtu.be/old" (Some "mp3")]} 7
     (PyStr.bytes [194; 160]%nat +:+ "https://youtu.be/abc123" +:+ PyStr.nl)).1.1
  = <[7 := Session "https://youtu.be/abc123" None]>
      {[7 := Session "https://youtu.be/old" (Some "mp3")]}.
Proof.
  assert (PyStr.strip (PyStr.bytes [194; 160]%nat +:+ "https://youtu.be/abc123" +:+ PyStr.nl)
          = "https://youtu.be/abc123") as Hstrip
    by (vm_compute; reflexivity).
  split; [exact Hstrip |].
  rewrite <- Hstrip at 2.
  refine (f_equal (fun r => r.1.1)
            (proj1 (handle_message_accepts Samples.accepting
                      {[7 := Session "https://youtu.be/old" (Some "mp3")]} 7
                      (PyStr.bytes [194; 160]%nat +:+ "https://youtu.be/abc123" +:+ PyStr.nl))
                   _)).
  exists "https://", "/abc123". right. exact Hstrip.
Defined.

(** X2.  Neither handler touches the session of another user. *)
Theorem handlers_touch_sender_only (api : platform) (sessions : user_sessions)
    (u j : Z) (text : string) :
  j <> u ->
  (handle_message api sessions u text).1.1 !! j = sessions !! j /\
  (format_button api sessions u text).1.1 !! j = sessions !! j.
Proof.
  intros Hj. split.
  - unfold handle_message. destruct (negb _); cbn [fst]; [done |].
    by rewrite lookup_insert_ne.
  - unfold format_button. destruct (api AnswerQuery) as [[]|e]; [| done].
    destruct (PyStr.split "_" text !! 1%nat) as [f|]; [| done].
    destruct (sessions !! u) as [s|]; [| done].
    destruct (api (EditQueryText _)) as [[]|e]; cbn [fst]; by rewrite lookup_insert_ne.
Qed.

Lemma handlers_touch_sender_only_witness :
  8 <> 7 /\
  (format_button Samples.accepting
     {[7 := Session "https://youtu.be/a" None; 8 := Session "https://youtu.be/b" None]}
     7 "format_mp3").1.1 !! 8
  = ({[7 := Session "https://youtu.be/a" None; 8 := Session "https://youtu.be/b" None]}
     : user_sessions) !! 8.
Proof.
  assert (8 <> 7) as Hne by discriminate.
  split; [exact Hne |].
  exact (proj2 (handlers_touch_sender_only Samples.accepting
                  {[7 := Session "https://youtu.be/a" None;
                    8 := Session "https://youtu.be/b" None]}
                  7 8 "format_mp3" Hne)).
Defined.

(** X3.  [format_button] never opens or closes a session and never changes
    a stored URL: every user has the same URL, if any, before and after. *)
Theorem format_button_keeps_urls (api : platform) (sessions : user_sessions)
    (u j : Z) (data : string) :
  url <$> (format_button api sessions u data).1.1 !! j = url <$> sessions !! j.
Proof.
  unfold format_button. destruct (api AnswerQuery) as [[]|e]; [| done].
  destruct (PyStr.split "_" data !! 1%nat) as [f|]; [| done].
  destruct (sessions !! u) as [s|] eqn:Hu; [| done].
  assert (url <$> <[u := Session (url s) (Some f)]> sessions !! j = url <$> sessions !! j)
    as Hkeep.
  { destruct (decide (j = u)) as [->|Hne].
    - by rewrite lookup_insert_eq, Hu.
    - by rewrite lookup_insert_ne. }
  by destruct (api (EditQueryText _)) as [[]|e].
Qed.

(** X4.  The callback data of a button reads back as its key: for every key
    without an underscore, the data ["format_" + key] gives [key]; and any
    data that begins with [format_], as the registered pattern requires, has
    the piece that [format_button] takes, so the index is never out of
    range. *)
Theorem callback_data_round_trip (key data : string) :
  (Commands.occurs "_" key = false ->
   PyStr.split "_" ("format_" +:+ key) !! 1%nat = Some key) /\
  (PyStr.startswith "format_" data = true ->
   is_Some (PyStr.split "_" data !! 1%nat)).
Proof.
  split.
  - intros Hkey. change ("format_" +:+ key) with ("format" +:+ String "_" key).
    rewrite split_app, (split_no_sep "_" key) by done. reflexivity.
  - intros [t ->]%startswith_inv.
    change ("format_" +:+ t) with ("format" +:+ String "_" t).
    rewrite split_app. pose proof (split_nonempty "_" t) as Hne.
    destruct (PyStr.split "_" t) as [|h rest]; [done |]. by exists h.
Qed.

Lemma callback_data_round_trip_witness :
  Commands.occurs "_" "best[height<=720]" = false /\
  PyStr.split "_" ("format_" +:+ "best[height<=720]") !! 1%nat = Some "best[height<=720]".
Proof.
  split; [reflexivity |].
  exact (proj1 (callback_data_round_trip "best[height<=720]" "") eq_refl).
Defined.

End SessionFrame.

(** ** Download orchestration: file choice, error report, session table *)

Section DownloadExtras.
Import Bot.

Implicit Types (env : download_env) (sessions : user_sessions).

(** X5.  Deriving the [.mp3] name twice gives the same name as deriving it
    once: when the library already reports the [.mp3] file, that very file
    is the one looked for. *)
Theorem mp3_filename_idempotent (filename : string) :
  mp3_filename (mp3_filename filename) = mp3_filename filename.
Proof.
  unfold mp3_filename, PyStr.rsplit1_head.
  rewrite (before_last_app "."%char _ "mp3") by reflexivity. reflexivity.
Qed.

(** X6.  Unless the key is ["mp3"] and the [.mp3] sibling exists, the file
    uploaded is the one the library named: every upload of the run is the
    call [send_action] chooses for that name, and it is made once the file
    can be opened. *)
Theorem library_file_is_sent env sessions (user_id : Z) (url format_key temp_dir : string)
    (info_title : option string) (filename : string) :
  make_tempdir env = Ok temp_dir ->
  ydl_download env (build_opts temp_dir format_key) url = Ok (info_title, filename) ->
  format_key <> "mp3" \/ path_exists env (mp3_filename filename) = false ->
  (forall a, a ∈ (process_download env sessions user_id url format_key).1.2 ->
     is_file_send a = true ->
     a = send_action user_id filename (default "video" info_title)) /\
  (open_file env filename = Ok () ->
   send_action user_id filename (default "video" info_title)
   ∈ (process_download env sessions user_id url format_key).1.2).
Proof.
  intros Ht Hy Hkeep.
  assert (final_filename env format_key filename = filename) as Hfinal.
  { unfold final_filename. pose proof Hkeep as [Hkey|Hmissing].
    - by rewrite decide_False.
    - rewrite Hmissing. by destruct (decide (format_key = "mp3")). }
  destruct (process_download_calls env sessions user_id url format_key)
    as (tail & -> & Htail).
  unfold try_block. rewrite Ht, Hy, Hfinal. split.
  - intros a Ha Hfile. apply elem_of_app in Ha as [Ha|Ha].
    + destruct (open_file env filename) as [[]|e]; cbn [fst] in Ha; by list_cases Ha.
    + rewrite Forall_forall in Htail. apply Htail in Ha. congruence.
  - intros Hopen. rewrite Hopen. cbn [fst]. apply elem_of_app. left. by constructor.
Qed.

Lemma library_file_is_sent_witness :
  make_tempdir Samples.extracted = Ok "/tmp/tmpk3" /\
  ydl_download Samples.extracted (build_opts "/tmp/tmpk3" "best") "https://youtu.be/abc123"
  = Ok (Some "Song", "/tmp/tmpk3/Song.webm") /\
  send_action 7 "/tmp/tmpk3/Song.webm" (default "video" (Some "Song"))
  = SendVideo 7 "/tmp/tmpk3/Song.webm" "Song" /\
  send_action 7 "/tmp/tmpk3/Song.webm" (default "video" (Some "Song"))
  ∈ (process_download Samples.extracted ∅ 7 "https://youtu.be/abc123" "best").1.2.
Proof.
  split; [reflexivity |]. split; [reflexivity |]. split; [vm_compute; reflexivity |].
  assert ("best" <> "mp3") as Hkey by discriminate.
  exact (proj2 (library_file_is_sent Samples.extracted ∅ 7 "https://youtu.be/abc123"
                  "best" "/tmp/tmpk3" (Some "Song") "/tmp/tmpk3/Song.webm"
                  eq_refl eq_refl (or_introl Hkey)) eq_refl).
Defined.

(** X7.  The user is sent an error message exactly when the [try] block is
    left by an [Exception], and then once, after whatever was uploaded: for
    [DownloadError] the fixed text, whatever the library said; for any other
    [Exception] the text that carries [str(e)]. *)
Theorem failure_is_reported_once env sessions (user_id : Z) (url format_key : string) :
  (process_download env sessions user_id url format_key).1.2
  = (try_block env user_id url format_key).1 ++
    match (try_block env user_id url format_key).2 with
    | Ok _ => []
    | Raise e => if is_Exception e then [SendMessage user_id (error_text e)] else []
    end /\
  (forall detail,
     error_text (Exn DownloadError detail)
     = "âŒ Download failed. The video may be restricted or unavailable." +:+ PyStr.nl
       +:+ "Please try again with a different video.") /\
  (forall detail,
     error_text (Exn OtherException detail)
     = "âŒ An error occurred: " +:+ detail +:+ PyStr.nl
       +:+ "Please try again with a different video.").
Proof.
  split; [| split].
  - unfold process_download.
    destruct (try_block env user_id url format_key) as [sent r]. cbn [fst snd].
    destruct r as [[]|e]; cbn [fst snd]; [by rewrite app_nil_r |].
    destruct (is_Exception e); cbn [fst snd]; [| by rewrite app_nil_r].
    destruct (bot_api env _) as [[]|e']; [done |]. by destruct (is_Exception e').
  - intros detail. reflexivity.
  - intros detail. unfold error_text. cbn [cls msg].
    by rewrite !app_assoc_str.
Qed.

(** X8.  When the upload is accepted but the temporary directory cannot be
    removed, the user receives the file and then an error message for the
    failed removal; the run still returns and the session is removed. *)
Theorem cleanup_failure_after_upload env sessions (user_id : Z)
    (url format_key temp_dir : string) (info_title : option string) (filename : string)
    (e : exn) :
  make_tempdir env = Ok temp_dir ->
  ydl_download env (build_opts temp_dir format_key) url = Ok (info_title, filename) ->
  open_file env (final_filename env format_key filename) = Ok () ->
  bot_api env (send_action user_id (final_filename env format_key filename)
                 (default "video" info_title)) = Ok () ->
  cleanup_tempdir env = Raise e -> cls e = OtherException ->
  bot_api env (SendMessage user_id (error_text e)) = Ok () ->
  (process_download env sessions user_id url format_key).1.2
  = [send_action user_id (final_filename env format_key filename)
       (default "video" info_title);
     SendMessage user_id ("âŒ An error occurred: " +:+ msg e +:+ PyStr.nl
                          +:+ "Please try again with a different video.")] /\
  (process_download env sessions user_id url format_key).2 = Returned /\
  (process_download env sessions user_id url format_key).1.1 !! user_id = None.
Proof.
  intros Ht Hy Ho Hup Hclean Hcls Herr.
  assert (error_text e = "âŒ An error occurred: " +:+ msg e +:+ PyStr.nl
                         +:+ "Please try again with a different video.") as Htext.
  { unfold error_text. rewrite Hcls. by rewrite !app_assoc_str. }
  unfold process_download, try_block, leave_tempdir.
  rewrite Ht, Hy, Ho, Hclean. unfold is_Exception. rewrite Hcls, Herr.
  cbn [fst snd app]. rewrite Htext.
  split; [reflexivity |]. split; [reflexivity |]. apply lookup_delete_eq.
Qed.

Lemma cleanup_failure_after_upload_witness :
  make_tempdir Fixtures.undeletable = Ok "/tmp/tmpk3" /\
  cleanup_tempdir Fixtures.undeletable = Raise (Exn OtherException "Directory not empty") /\
  (process_download Fixtures.undeletable ∅ 7 "https://youtu.be/abc123" "best").2 = Returned.
Proof.
  split; [reflexivity |]. split; [reflexivity |].
  exact (proj1 (proj2
    (cleanup_failure_after_upload Fixtures.undeletable ∅ 7 "https://youtu.be/abc123"
       "best" "/tmp/tmpk3" None "/tmp/tmpk3/clip.mkv"
       (Exn OtherException "Directory not empty")
       eq_refl eq_refl eq_refl eq_refl eq_refl eq_refl eq_refl))).
Defined.

(** X9.  When no other handler changes the table during the awaits, a run
    that returns leaves the table as it was without the user's entry, and a
    run that is left by an exception outside [Exception] leaves the whole
    table as it was, the user's entry included. *)
Theorem run_without_interference env sessions (user_id : Z) (url format_key : string) :
  (forall s, others_during_send env s = s) ->
  (forall s, others_during_error env s = s) ->
  match (process_download env sessions user_id url format_key).2 with
  | Returned =>
      (process_download env sessions user_id url format_key).1.1
      = delete user_id sessions
  | Propagated _ =>
      (process_download env sessions user_id url format_key).1.1 = sessions
  end.
Proof.
  intros Hsend Herror. unfold process_download.
  destruct (try_block env user_id url format_key) as [sent r].
  assert (match sent with [] => sessions | _ => others_during_send env sessions end
          = sessions) as -> by (destruct sent; [done | apply Hsend]).
  rewrite Herror.
  destruct r as [[]|e]; cbn [fst snd]; [done |].
  destruct (is_Exception e); cbn [fst snd]; [| done].
  destruct (bot_api env _) as [[]|e']; cbn [fst snd]; [done |].
  by destruct (is_Exception e').
Qed.

Lemma run_without_interference_witness :
  (forall s, others_during_send Samples.cancelled s = s) /\
  (forall s, others_during_error Samples.cancelled s = s) /\
  (process_download Samples.cancelled
     {[7 := Session "https://youtu.be/abc123" (Some "best")]}
     7 "https://youtu.be/abc123" "best").1.1
  = {[7 := Session "https://youtu.be/abc123" (Some "best")]}.
Proof.
  split; [reflexivity |]. split; [reflexivity |].
  exact (run_without_interference Samples.cancelled
           {[7 := Session "https://youtu.be/abc123" (Some "best")]}
           7 "https://youtu.be/abc123" "best" (fun s => eq_refl) (fun s => eq_refl)).
Defined.

End DownloadExtras.

(** ** Configuration store: what [load_config] returns *)

Section BackfillExtras.
Import Config.

Implicit Types (c : gmap string json) (st : store) (w : write_outcome).

Lemma is_str_elem (k : string) (l : list json) :
  existsb (is_str k) l = true <-> JStr k ∈ l.
Proof.
  rewrite existsb_exists. split.
  - intros (v & Hin%list_elem_of_In & Hv). destruct v; try done.
    simpl in Hv. by apply bool_decide_eq_true in Hv as ->.
  - intros Hin. exists (JStr k). split; [by apply list_elem_of_In |].
    simpl. by apply bool_decide_eq_true.
Qed.

(** X26.  What [load_config] returns, for every state of the file.  A
    stored dictionary without the key comes back with the entry of
    [DEFAULT_CONFIG] filled in and its own entries kept.  The object
    returned is a dictionary holding [required_channel] in every case but
    two: a file that holds a JSON array with the string ["required_channel"]
    among its elements, and a file that holds a JSON string with that word
    inside it; in those two cases the stored value is returned as it is. *)
Theorem load_config_backfills w st :
  dom (DEFAULT_CONFIG st) = {["required_channel"]} ->
  (forall c, config_file st = Holds (JObj c) -> c !! "required_channel" = None ->
     exists c', load_config w st = (Loaded (JObj c'), st) /\
       c' !! "required_channel" = DEFAULT_CONFIG st !! "required_channel" /\
       (forall k x, c !! k = Some x -> c' !! k = Some x)) /\
  ((exists m, deref (load_config w st).2 (load_config w st).1 = JObj m /\
      is_Some (m !! "required_channel")) <->
   ~ ((exists l, config_file st = Holds (JArr l) /\ JStr "required_channel" ∈ l) \/
      (exists a b, config_file st = Holds (JStr (a +:+ "required_channel" +:+ b))))) /\
  (forall v,
     (exists l, v = JArr l /\ JStr "required_channel" ∈ l) \/
     (exists a b, v = JStr (a +:+ "required_channel" +:+ b)) ->
     config_file st = Holds v -> load_config w st = (Loaded v, st)).
Proof.
  intros Hdom.
  destruct (dom_singleton_inv_L _ _ Hdom) as [x Hx].
  assert (forall v, config_file st = Holds v ->
            load_config w st
            = (match backfill [("required_channel", x)] v with
               | Some config => Loaded config
               | None => TheDefault
               end, st)) as Hload.
  { intros v Hv. unfold load_config. rewrite Hv, Hx, map_to_list_singleton.
    by destruct (backfill _ v). }
  assert (forall s, (exists a b, s = a +:+ "required_channel" +:+ b)
                    <-> PyStr.contains "required_channel" s = true) as Hword.
  { intros s. symmetry. apply contains_spec. }
  split; [| split].
  - intros c Hf Hc. exists (c ∪ DEFAULT_CONFIG st).
    split; [by apply load_config_dict |]. split.
    + by rewrite lookup_union_r.
    + intros k y Hk. by apply lookup_union_Some_l.
  - destruct (config_file st) as [| |v] eqn:Hf.
    + split; [intros _ [(l & Hl & _) | (a & b & Hs)]; done |].
      intros _. unfold load_config. rewrite Hf. exists (DEFAULT_CONFIG st).
      split; [by destruct w |]. rewrite Hx, lookup_singleton_eq. by eexists.
    + split; [intros _ [(l & Hl & _) | (a & b & Hs)]; done |].
      intros _. unfold load_config. rewrite Hf. exists (DEFAULT_CONFIG st).
      split; [done |]. rewrite Hx, lookup_singleton_eq. by eexists.
    + rewrite (Hload v eq_refl).
      assert (exists m, deref st TheDefault = JObj m /\ is_Some (m !! "required_channel"))
        as Hdefault.
      { exists (DEFAULT_CONFIG st). split; [done |].
        rewrite Hx, lookup_singleton_eq. by eexists. }
      destruct v as [|flag|n|s|l|c]; cbn [backfill py_in py_setitem fst snd].
      * split; [intros _ [(l & Hl & _) | (a & b & Hs)]; done | by intros _].
      * split; [intros _ [(l & Hl & _) | (a & b & Hs)]; done | by intros _].
      * split; [intros _ [(l & Hl & _) | (a & b & Hs)]; done | by intros _].
      * destruct (PyStr.contains "required_channel" s) eqn:Hs.
        -- split; [by intros (m & Hm & _) |].
           intros Hno. destruct Hno. right. apply Hword in Hs as (a & b & ->). eauto.
        -- split; [| by intros _].
           intros _ [(l & Hl & _) | (a & b & [= Heq])]; [done |].
           assert (PyStr.contains "required_channel" s = true) as Hyes
             by (apply Hword; eauto). congruence.
      * destruct (existsb (is_str "required_channel") l) eqn:Hl.
        -- split; [by intros (m & Hm & _) |].
           intros Hno. destruct Hno. left. exists l. split; [done |]. by apply is_str_elem.
        -- split; [| by intros _].
           intros _ [(l' & [= <-] & Hin%is_str_elem) | (a & b & Hs)]; [congruence | done].
      * split; [| intros _].
        -- intros _ [(l & Hl & _) | (a & b & Hs)]; done.
        -- case_bool_decide as Hkey; cbn [deref]; eexists; (split; [reflexivity |]).
           ++ done.
           ++ rewrite lookup_insert_eq. by eexists.
  - intros v Hv Hf. rewrite (Hload v Hf).
    destruct Hv as [(l & -> & Hin%is_str_elem) | (a & b & ->)]; cbn [backfill py_in].
    + by rewrite Hin.
    + by rewrite contains_app.
Qed.

Lemma load_config_backfills_witness :
  dom (DEFAULT_CONFIG (fresh_store "@channel" (Holds (JObj {["lang" := JStr "en"]}))))
  = {["required_channel"]} /\
  exists c',
    load_config Written (fresh_store "@channel" (Holds (JObj {["lang" := JStr "en"]})))
    = (Loaded (JObj c'), fresh_store "@channel" (Holds (JObj {["lang" := JStr "en"]}))) /\
    c' !! "required_channel" = Some (JStr "@channel") /\
    c' !! "lang" = Some (JStr "en").
Proof.
  assert (dom (DEFAULT_CONFIG
                 (fresh_store "@channel" (Holds (JObj {["lang" := JStr "en"]}))))
          = {["required_channel"]}) as Hdom
    by apply dom_singleton_L.
  split; [exact Hdom |].
  destruct (proj1 (load_config_backfills Written
                     (fresh_store "@channel" (Holds (JObj {["lang" := JStr "en"]}))) Hdom)
                  {["lang" := JStr "en"]} eq_refl eq_refl)
    as (c' & Hload & Hchannel & Hkept).
  exists c'. split; [exact Hload |]. split.
  - rewrite Hchannel. reflexivity.
  - apply Hkept. reflexivity.
Defined.

End BackfillExtras.

(** ** Configuration store: first run, readers and writers *)

Section ConfigExtras.
Import Config Bot Commands.

Variable ADMIN_IDS : list Z.
Variable REQUIRED_CHANNEL : string.
Variable py_repr : json -> string.

Implicit Types (c : gmap string json) (st : store) (w : write_outcome) (api : platform).

(** X10.  [load_config] never changes [DEFAULT_CONFIG] and never writes to a
    file that exists; on a missing file with a successful write it stores
    [DEFAULT_CONFIG], and the next [load_config] reads exactly that back
    without writing again. *)
Theorem load_config_first_run w st :
  DEFAULT_CONFIG (load_config w st).2 = DEFAULT_CONFIG st /\
  (config_file st <> Missing -> (load_config w st).2 = st) /\
  (config_file st = Missing ->
   config_file (load_config Written st).2 = Holds (JObj (DEFAULT_CONFIG st)) /\
   load_config w (load_config Written st).2
   = (Loaded (JObj (DEFAULT_CONFIG st)), (load_config Written st).2)).
Proof.
  split; [| split].
  - unfold load_config. destruct (config_file st) as [| |v]; [by destruct w | done |].
    by destruct (backfill _ v).
  - unfold load_config. destruct (config_file st) as [| |v]; [done | done |].
    by destruct (backfill _ v).
  - intros Hmissing. unfold load_config at 1 3 4. rewrite Hmissing. cbn [fst snd save_config deref].
    split; [done |].
    rewrite (load_config_dict w _ (DEFAULT_CONFIG st)) by done.
    cbn [DEFAULT_CONFIG]. by rewrite (idemp_L (∪)).
Qed.

(** X11.  [get_required_channel] returns the channel stored in the file when
    the file holds a dictionary with the key, and the entry of
    [DEFAULT_CONFIG] when the file is missing, unreadable or holds a
    dictionary without the key. *)
Theorem get_required_channel_reads_store w st (x : json) :
  DEFAULT_CONFIG st !! "required_channel" = Some x ->
  (forall c v, config_file st = Holds (JObj c) -> c !! "required_channel" = Some v ->
     (get_required_channel REQUIRED_CHANNEL w st).1 = Ok v) /\
  (config_file st = Missing \/ config_file st = Unreadable \/
   (exists c, config_file st = Holds (JObj c) /\ c !! "required_channel" = None) ->
   (get_required_channel REQUIRED_CHANNEL w st).1 = Ok x).
Proof.
  intros Hx. unfold get_required_channel. split.
  - intros c v Hf Hv. rewrite (load_config_dict w st c) by done. cbn [deref fst].
    by rewrite (lookup_union_Some_l _ _ _ v).
  - intros [Hf | [Hf | (c & Hf & Hc)]].
    + unfold load_config. rewrite Hf. destruct w; cbn [deref fst save_config DEFAULT_CONFIG];
        by rewrite Hx.
    + unfold load_config. rewrite Hf. cbn [deref fst]. by rewrite Hx.
    + rewrite (load_config_dict w st c) by done. cbn [deref fst].
      by rewrite lookup_union_r, Hx.
Qed.

(** X12.  An accepted [/setchannel] on a stored dictionary keeps every other
    entry of it: the file then holds the channel under [required_channel]
    and each other key with the value it had, and [DEFAULT_CONFIG] is not
    touched. *)
Theorem set_channel_keeps_other_keys api w st (user_id : Z) (arg0 : string)
    (rest : list string) c :
  user_id ∈ ADMIN_IDS ->
  PyStr.startswith "@" (PyStr.strip arg0) = true ->
  config_file st = Holds (JObj c) ->
  exists c',
    (set_channel_command ADMIN_IDS api w Written st user_id (arg0 :: rest)).1.1
    = Store (Holds (JObj c')) (DEFAULT_CONFIG st) /\
    c' !! "required_channel" = Some (JStr (PyStr.strip arg0)) /\
    (forall k v, k <> "required_channel" -> c !! k = Some v -> c' !! k = Some v).
Proof.
  intros Hadmin Hat Hf. unfold set_channel_command.
  rewrite bool_decide_eq_true_2 by done. cbn [negb]. rewrite Hat. cbn [negb].
  rewrite (load_config_dict w st c) by done. cbn [py_setitem fst save_config].
  eexists. split; [done |]. split.
  - apply lookup_insert_eq.
  - intros k v Hk Hv. rewrite lookup_insert_ne by done. by apply lookup_union_Some_l.
Qed.

(** X13.  What [/setchannel] stores is what [/getchannel] shows: after an
    accepted [/setchannel] whose write succeeds, on a file that is missing,
    unreadable or a dictionary, [get_required_channel] returns that channel
    and an admin's [/getchannel] replies with it. *)
Theorem set_then_get_channel api w st (user_id admin : Z) (arg0 : string)
    (rest : list string) :
  user_id ∈ ADMIN_IDS -> admin ∈ ADMIN_IDS ->
  PyStr.startswith "@" (PyStr.strip arg0) = true ->
  (forall v, config_file st = Holds v -> exists c, v = JObj c) ->
  (get_required_channel REQUIRED_CHANNEL w
     (set_channel_command ADMIN_IDS api Written Written st user_id (arg0 :: rest)).1.1).1
  = Ok (JStr (PyStr.strip arg0)) /\
  (get_channel_command ADMIN_IDS REQUIRED_CHANNEL py_repr api w
     (set_channel_command ADMIN_IDS api Written Written st user_id (arg0 :: rest)).1.1
     admin).1.2
  = [ReplyText ("Current required channel: " +:+ PyStr.strip arg0)].
Proof.
  intros Huser Hadmin Hat Hobj.
  destruct (set_channel_command_sets ADMIN_IDS api st user_id arg0 rest Huser Hat Hobj)
    as (c & Hfile & Hc).
  assert ((get_required_channel REQUIRED_CHANNEL w
             (set_channel_command ADMIN_IDS api Written Written st user_id
                (arg0 :: rest)).1.1).1 = Ok (JStr (PyStr.strip arg0))) as Hget.
  { unfold get_required_channel. rewrite (load_config_dict w _ c) by done.
    cbn [deref fst]. by rewrite (lookup_union_Some_l _ _ _ (JStr (PyStr.strip arg0))). }
  split; [exact Hget |].
  unfold get_channel_command. rewrite bool_decide_eq_true_2 by done. cbn [negb].
  destruct (get_required_channel _ _ _) as [r st1]. cbn [fst] in Hget. by rewrite Hget.
Qed.

(** X14.  The reply of [/setchannel] does not tell whether the channel was
    stored: when the file holds a dictionary and the file cannot be opened
    for writing, the admin still gets the confirmation and the store is
    exactly as before. *)
Theorem set_channel_confirms_unsaved api w st (user_id : Z) (arg0 : string)
    (rest : list string) c :
  user_id ∈ ADMIN_IDS ->
  PyStr.startswith "@" (PyStr.strip arg0) = true ->
  config_file st = Holds (JObj c) ->
  (set_channel_command ADMIN_IDS api w OpenFailed st user_id (arg0 :: rest)).1
  = (st, [ReplyText ("âœ… Required channel set to " +:+ PyStr.strip arg0)]).
Proof.
  intros Hadmin Hat Hf. unfold set_channel_command.
  rewrite bool_decide_eq_true_2 by done. cbn [negb]. rewrite Hat. cbn [negb].
  by rewrite (load_config_dict w st c).
Qed.

(** X15.  A file that holds a JSON array with the string [required_channel]
    in it stops every reader and cannot be repaired by [/setchannel]:
    [get_required_channel] raises, and an accepted [/setchannel] is left by
    an exception with the store unchanged and no reply. *)
Theorem array_config_blocks_commands api w w' st (user_id : Z) (arg0 : string)
    (rest : list string) (l : list json) (x : json) :
  DEFAULT_CONFIG st = {["required_channel" := x]} ->
  config_file st = Holds (JArr l) ->
  existsb (is_str "required_channel") l = true ->
  user_id ∈ ADMIN_IDS ->
  PyStr.startswith "@" (PyStr.strip arg0) = true ->
  (exists e, get_required_channel REQUIRED_CHANNEL w st = (Raise e, st)) /\
  (exists e, set_channel_command ADMIN_IDS api w w' st user_id (arg0 :: rest)
             = (st, [], Propagated e)).
Proof.
  intros Hd Hf Hin Hadmin Hat.
  assert (load_config w st = (Loaded (JArr l), st)) as Hload.
  { unfold load_config. rewrite Hf, Hd, map_to_list_singleton. simpl. by rewrite Hin. }
  split.
  - unfold get_required_channel. rewrite Hload. by eexists.
  - unfold set_channel_command.
    rewrite bool_decide_eq_true_2 by done. cbn [negb]. rewrite Hat. cbn [negb].
    rewrite Hload. by eexists.
Qed.

(** X25.  When the file is missing or unreadable, [load_config] hands out
    [DEFAULT_CONFIG] itself and an accepted [/setchannel] writes the channel
    into it, whatever becomes of the writes to the file; so with an
    unreadable file that cannot be opened for writing, the channel is kept
    in memory only and is what [get_required_channel] returns afterwards. *)
Theorem set_channel_updates_default api w w' w'' st (user_id : Z) (arg0 : string)
    (rest : list string) :
  user_id ∈ ADMIN_IDS ->
  PyStr.startswith "@" (PyStr.strip arg0) = true ->
  config_file st = Missing \/ config_file st = Unreadable ->
  DEFAULT_CONFIG (set_channel_command ADMIN_IDS api w w' st user_id (arg0 :: rest)).1.1
    !! "required_channel" = Some (JStr (PyStr.strip arg0)) /\
  (config_file st = Unreadable ->
   config_file (set_channel_command ADMIN_IDS api w OpenFailed st user_id
                  (arg0 :: rest)).1.1 = Unreadable /\
   (get_required_channel REQUIRED_CHANNEL w''
      (set_channel_command ADMIN_IDS api w OpenFailed st user_id (arg0 :: rest)).1.1).1
   = Ok (JStr (PyStr.strip arg0))).
Proof.
  intros Hadmin Hat Hf. unfold set_channel_command.
  rewrite bool_decide_eq_true_2 by done. cbn [negb]. rewrite Hat. cbn [negb].
  unfold load_config. split.
  - destruct Hf as [Hf|Hf]; rewrite Hf; destruct w, w';
      cbn [fst snd save_config deref DEFAULT_CONFIG config_file];
      apply lookup_insert_eq.
  - intros Hun. rewrite Hun. cbn [fst snd save_config deref DEFAULT_CONFIG config_file].
    rewrite Hun. split; [done |]. unfold get_required_channel, load_config. cbn.
    by rewrite lookup_insert_eq.
Qed.

End ConfigExtras.

Section ConfigExtrasRuns.
Import Config Bot.

Lemma get_required_channel_reads_store_witness :
  DEFAULT_CONFIG (fresh_store "@channel" Unreadable) !! "required_channel"
  = Some (JStr "@channel") /\
  (Commands.get_required_channel "@channel" Written (fresh_store "@channel" Unreadable)).1
  = Ok (JStr "@channel").
Proof.
  split; [reflexivity |].
  exact (proj2 (get_required_channel_reads_store "@channel" Written
                  (fresh_store "@channel" Unreadable) (JStr "@channel") eq_refl)
               (or_intror (or_introl eq_refl))).
Defined.

Lemma set_channel_keeps_other_keys_witness :
  1001 ∈ [1001] /\
  PyStr.startswith "@" (PyStr.strip "@music") = true /\
  exists c',
    (set_channel_command [1001] Samples.accepting Written Written
       (fresh_store "@channel" (Holds (JObj {["lang" := JStr "en"]}))) 1001 ["@music"]).1.1
    = Store (Holds (JObj c')) {["required_channel" := JStr "@channel"]} /\
    c' !! "required_channel" = Some (JStr "@music") /\
    c' !! "lang" = Some (JStr "en").
Proof.
  assert (1001 ∈ [1001]) as Hadmin by constructor.
  split; [exact Hadmin |]. split; [reflexivity |].
  destruct (set_channel_keeps_other_keys [1001] Samples.accepting Written
              (fresh_store "@channel" (Holds (JObj {["lang" := JStr "en"]})))
              1001 "@music" [] {["lang" := JStr "en"]} Hadmin eq_refl eq_refl)
    as (c' & Hst & Hchannel & Hkept).
  exists c'. split; [exact Hst |]. split; [exact Hchannel |].
  apply Hkept; [discriminate | reflexivity].
Defined.

Lemma array_config_blocks_commands_witness :
  DEFAULT_CONFIG (fresh_store "@channel" (Holds (JArr [JStr "required_channel"])))
  = {["required_channel" := JStr "@channel"]} /\
  existsb (is_str "required_channel") [JStr "required_channel"] = true /\
  exists e,
    set_channel_command [1001] Samples.accepting Written Written
      (fresh_store "@channel" (Holds (JArr [JStr "required_channel"]))) 1001 ["@music"]
    = (fresh_store "@channel" (Holds (JArr [JStr "required_channel"])), [], Propagated e).
Proof.
  assert (1001 ∈ [1001]) as Hadmin by constructor.
  split; [reflexivity |]. split; [reflexivity |].
  exact (proj2 (array_config_blocks_commands [1001] "@channel" Samples.accepting Written Written
                  (fresh_store "@channel" (Holds (JArr [JStr "required_channel"])))
                  1001 "@music" [] [JStr "required_channel"] (JStr "@channel")
                  eq_refl eq_refl eq_refl Hadmin eq_refl)).
Defined.

Lemma set_then_get_channel_witness :
  1001 ∈ [1001; 1002] /\ 1002 ∈ [1001; 1002] /\
  PyStr.startswith "@" (PyStr.strip "@music") = true /\
  (Commands.get_channel_command [1001; 1002] "@channel" Fixtures.no_repr
     Samples.accepting Written
     (set_channel_command [1001; 1002] Samples.accepting Written Written
        (fresh_store "@channel" Missing) 1001 ("@music" :: [])).1.1
     1002).1.2
  = [ReplyText ("Current required channel: " +:+ PyStr.strip "@music")].
Proof.
  assert (1001 ∈ [1001; 1002]) as Huser by constructor.
  assert (1002 ∈ [1001; 1002]) as Hadmin by (constructor; constructor).
  split; [exact Huser |]. split; [exact Hadmin |]. split; [reflexivity |].
  refine (proj2 (set_then_get_channel [1001; 1002] "@channel" Fixtures.no_repr
                   Samples.accepting Written (fresh_store "@channel" Missing)
                   1001 1002 "@music" [] Huser Hadmin eq_refl _)).
  intros v Hv. discriminate Hv.
Defined.

Lemma set_channel_confirms_unsaved_witness :
  1001 ∈ [1001] /\
  PyStr.startswith "@" (PyStr.strip "@music") = true /\
  (set_channel_command [1001] Samples.accepting Written OpenFailed
     (fresh_store "@channel" (Holds (JObj {["required_channel" := JStr "@old"]})))
     1001 ("@music" :: [])).1
  = (fresh_store "@channel" (Holds (JObj {["required_channel" := JStr "@old"]})),
     [ReplyText ("âœ… Required channel set to " +:+ PyStr.strip "@music")]).
Proof.
  assert (1001 ∈ [1001]) as Hadmin by constructor.
  split; [exact Hadmin |]. split; [reflexivity |].
  exact (set_channel_confirms_unsaved [1001] Samples.accepting Written
           (fresh_store "@channel" (Holds (JObj {["required_channel" := JStr "@old"]})))
           1001 "@music" [] {["required_channel" := JStr "@old"]} Hadmin eq_refl eq_refl).
Defined.

Lemma set_channel_updates_default_witness :
  1001 ∈ [1001] /\
  PyStr.startswith "@" (PyStr.strip "@music") = true /\
  (config_file (fresh_store "@channel" Unreadable) = Missing \/
   config_file (fresh_store "@channel" Unreadable) = Unreadable) /\
  DEFAULT_CONFIG
    (set_channel_command [1001] Samples.accepting Written DumpFailed
       (fresh_store "@channel" Unreadable) 1001 ("@music" :: [])).1.1
    !! "required_channel" = Some (JStr (PyStr.strip "@music")).
Proof.
  assert (1001 ∈ [1001]) as Hadmin by constructor.
  assert (config_file (fresh_store "@channel" Unreadable) = Missing \/
          config_file (fresh_store "@channel" Unreadable) = Unreadable) as Hf
    by (right; reflexivity).
  split; [exact Hadmin |]. split; [reflexivity |]. split; [exact Hf |].
  exact (proj1 (set_channel_updates_default [1001] "@channel" Samples.accepting
                  Written DumpFailed Written (fresh_store "@channel" Unreadable)
                  1001 "@music" [] Hadmin eq_refl Hf)).
Defined.

End ConfigExtrasRuns.

(** ** Commands that read the channel *)

Section CommandExtras.
Import Config Commands.

Variable ADMIN_IDS : list Z.
Variable REQUIRED_CHANNEL : string.
Variable py_repr : json -> string.

Implicit Types (st : store) (w : write_outcome) (api : platform).

(** X16.  [check_membership] returns [True] only when the platform reported
    the status [member], [administrator] or [creator] for the channel read
    from the store and the confirmation reply was delivered; that reply is
    then the only one. *)
Theorem check_membership_true (lookup : json -> Z -> result string) api w st
    (user_id : Z) (st' : store) (acts : list action) :
  check_membership REQUIRED_CHANNEL py_repr lookup api w st user_id = (st', acts, Ok true) ->
  exists channel status,
    (get_required_channel REQUIRED_CHANNEL w st).1 = Ok channel /\
    lookup channel user_id = Ok status /\
    (status = "member" \/ status = "administrator" \/ status = "creator") /\
    acts = [ReplyText (member_text (py_format py_repr channel))] /\
    api (ReplyText (member_text (py_format py_repr channel))) = Ok ().
Proof.
  unfold check_membership.
  destruct (get_required_channel REQUIRED_CHANNEL w st) as [[channel|e] st1]; [| done].
  destruct (lookup channel user_id) as [status|e] eqn:Hlookup.
  - case_bool_decide as Hstatus.
    + destruct (api (ReplyText (member_text _))) as [[]|e] eqn:Hapi.
      * intros [= <- <-]. exists channel, status. repeat split; try done.
        by list_cases Hstatus; auto.
      * destruct (is_Exception e); [| done].
        by destruct (api (ReplyText (unverified_text _))).
    + destruct (api (ReplyText (not_member_text _))) as [[]|e]; [done |].
      destruct (is_Exception e); [| done].
      by destruct (api (ReplyText (unverified_text _))).
  - destruct (is_Exception e); [| done].
    by destruct (api (ReplyText (unverified_text _))).
Qed.

(** X17.  A lookup that fails with an [Exception], and equally a member
    whose confirmation reply fails with an [Exception], ends with the
    could-not-verify text as the last reply; the handler then returns
    [False] when that text is delivered. *)
Theorem check_membership_unverified (lookup : json -> Z -> result string) api w st
    (user_id : Z) (channel : json) (e : exn) :
  (get_required_channel REQUIRED_CHANNEL w st).1 = Ok channel ->
  is_Exception e = true ->
  api (ReplyText (unverified_text (py_format py_repr channel))) = Ok () ->
  (lookup channel user_id = Raise e ->
   (check_membership REQUIRED_CHANNEL py_repr lookup api w st user_id).1.2
   = [ReplyText (unverified_text (py_format py_repr channel))] /\
   (check_membership REQUIRED_CHANNEL py_repr lookup api w st user_id).2 = Ok false) /\
  (lookup channel user_id = Ok "member" ->
   api (ReplyText (member_text (py_format py_repr channel))) = Raise e ->
   (check_membership REQUIRED_CHANNEL py_repr lookup api w st user_id).1.2
   = [ReplyText (member_text (py_format py_repr channel));
      ReplyText (unverified_text (py_format py_repr channel))] /\
   (check_membership REQUIRED_CHANNEL py_repr lookup api w st user_id).2 = Ok false).
Proof.
  intros Hget He Hhint. unfold check_membership.
  destruct (get_required_channel REQUIRED_CHANNEL w st) as [r st1]. cbn [fst] in Hget.
  subst r. split.
  - intros Hlookup. by rewrite Hlookup, He, Hhint.
  - intros Hlookup Hreply. rewrite Hlookup.
    rewrite bool_decide_eq_true_2 by (by constructor).
    by rewrite Hreply, He, Hhint.
Qed.

(** X18.  [start] always begins with the welcome text as a [MarkdownV2]
    reply: the greeting with the user's name, the channel read from the
    store, the four commands, and for a sender in [ADMIN_IDS] the two admin
    commands.  When that reply is accepted it is the only one.  When it
    fails with an [Exception], one more reply follows, without a parse
    mode, whose text is the welcome text with every [*] and every backquote
    taken out and nothing else changed; an exception outside [Exception]
    leaves the handler at once. *)
Theorem start_fallback_is_plain (api : reply -> result unit) w st (user_id : Z)
    (first_name : string) (channel : json) (text : string) :
  (get_required_channel REQUIRED_CHANNEL w st).1 = Ok channel ->
  text = ("Hello " +:+ first_name +:+ "\! ðŸ‘‹" +:+ PyStr.nl +:+ PyStr.nl
          +:+ "I'm your YouTube Video Downloader bot\. ðŸŽ¥" +:+ PyStr.nl +:+ PyStr.nl
          +:+ "âš ï¸ *Important*\: You must join our channel " +:+ py_format py_repr channel
          +:+ " to use this bot\!" +:+ PyStr.nl +:+ PyStr.nl
          +:+ "Send me a YouTube URL and I'll help you download it\!" +:+ PyStr.nl +:+ PyStr.nl
          +:+ "*Commands*\:" +:+ PyStr.nl
          +:+ "/start \- Start the bot" +:+ PyStr.nl
          +:+ "/help \- Get help" +:+ PyStr.nl
          +:+ "/formats \- See available formats" +:+ PyStr.nl
          +:+ "/check \- Verify channel membership" +:+ PyStr.nl)
         +:+ (if bool_decide (user_id ∈ ADMIN_IDS) then
                PyStr.nl +:+ "ðŸ” *Admin Commands*\:" +:+ PyStr.nl
                +:+ "/setchannel \- Set required channel" +:+ PyStr.nl
                +:+ "/getchannel \- Get current channel" +:+ PyStr.nl
              else "") ->
  (api (Reply text (Some "MarkdownV2")) = Ok () ->
   (start ADMIN_IDS REQUIRED_CHANNEL py_repr api w st user_id first_name).1.2
   = [Reply text (Some "MarkdownV2")] /\
   (start ADMIN_IDS REQUIRED_CHANNEL py_repr api w st user_id first_name).2 = Returned) /\
  (forall e, api (Reply text (Some "MarkdownV2")) = Raise e -> is_Exception e = false ->
     (start ADMIN_IDS REQUIRED_CHANNEL py_repr api w st user_id first_name).1.2
     = [Reply text (Some "MarkdownV2")] /\
     (start ADMIN_IDS REQUIRED_CHANNEL py_repr api w st user_id first_name).2
     = Propagated e) /\
  (forall e, api (Reply text (Some "MarkdownV2")) = Raise e -> is_Exception e = true ->
     exists plain,
       (start ADMIN_IDS REQUIRED_CHANNEL py_repr api w st user_id first_name).1.2
       = [Reply text (Some "MarkdownV2"); Reply plain None] /\
       (start ADMIN_IDS REQUIRED_CHANNEL py_repr api w st user_id first_name).2
       = match api (Reply plain None) with
         | Ok _ => Returned
         | Raise e' => Propagated e'
         end /\
       list_ascii_of_string plain
       = List.filter (fun c => negb (bool_decide (c = "*"%char \/ c = "`"%char)))
           (list_ascii_of_string text) /\
       occurs "*" plain = false /\ occurs "`" plain = false).
Proof.
  intros Hget Htext.
  assert (welcome_message first_name (py_format py_repr channel)
            (bool_decide (user_id ∈ ADMIN_IDS)) = text) as Hwelcome.
  { rewrite Htext. unfold welcome_message.
    destruct (bool_decide (user_id ∈ ADMIN_IDS)); [| by rewrite app_nil_r_str].
    by rewrite !app_assoc_str. }
  unfold start.
  destruct (get_required_channel REQUIRED_CHANNEL w st) as [r st1]. cbn [fst] in Hget.
  subst r. rewrite Hwelcome. clear Htext Hwelcome.
  split; [| split].
  - by intros ->.
  - intros e -> ->. done.
  - intros e -> ->. exists (plain_text text). split; [done |]. split; [done |].
    unfold plain_text. split; [| split].
    + rewrite !replace_filter, filter_twice. apply List.filter_ext. intros c.
      destruct (decide (c = "*"%char)) as [->|Hstar]; [reflexivity |].
      destruct (decide (c = "`"%char)) as [->|Htick]; [reflexivity |].
      rewrite (bool_decide_eq_false_2 (c = "*"%char)) by done.
      rewrite (bool_decide_eq_false_2 (c = "`"%char)) by done.
      rewrite (bool_decide_eq_false_2 (_ \/ _)) by (intros [|]; done). done.
    + apply occurs_replace_other, occurs_replace_same.
    + apply occurs_replace_same.
Qed.

End CommandExtras.

Section CommandRuns.
Import Config Commands.

Lemma check_membership_true_witness :
  check_membership "@channel" Fixtures.no_repr Fixtures.as_member Samples.accepting
    Written (fresh_store "@channel" Unreadable) 7
  = (fresh_store "@channel" Unreadable, [ReplyText (member_text "@channel")], Ok true) /\
  exists channel status,
    Fixtures.as_member channel 7 = Ok status /\
    (status = "member" \/ status = "administrator" \/ status = "creator").
Proof.
  assert (check_membership "@channel" Fixtures.no_repr Fixtures.as_member
            Samples.accepting Written (fresh_store "@channel" Unreadable) 7
          = (fresh_store "@channel" Unreadable, [ReplyText (member_text "@channel")],
             Ok true)) as Hrun
    by (vm_compute; reflexivity).
  split; [exact Hrun |].
  destruct (check_membership_true "@channel" Fixtures.no_repr Fixtures.as_member
              Samples.accepting Written (fresh_store "@channel" Unreadable) 7 _ _ Hrun)
    as (channel & status & _ & Hlookup & Hstatus & _).
  exists channel, status. split; [exact Hlookup | exact Hstatus].
Defined.

Lemma check_membership_unverified_witness :
  (get_required_channel "@channel" Written (fresh_store "@channel" Unreadable)).1
  = Ok (JStr "@channel") /\
  is_Exception (Exn OtherException "Chat not found") = true /\
  (check_membership "@channel" Fixtures.no_repr Fixtures.chat_not_found Samples.accepting
     Written (fresh_store "@channel" Unreadable) 7).2 = Ok false.
Proof.
  split; [reflexivity |]. split; [reflexivity |].
  exact (proj2 (proj1
    (check_membership_unverified "@channel" Fixtures.no_repr Fixtures.chat_not_found
       Samples.accepting Written (fresh_store "@channel" Unreadable) 7
       (JStr "@channel") (Exn OtherException "Chat not found")
       eq_refl eq_refl eq_refl) eq_refl)).
Defined.

(** A platform that refuses every message with a parse mode. *)
Lemma start_fallback_is_plain_witness :
  exists text plain,
    (start [1001] "@channel" Fixtures.no_repr Fixtures.no_markdown Written
       (fresh_store "@channel" Unreadable) 7 "Ann").1.2
    = [Reply text (Some "MarkdownV2"); Reply plain None] /\
    occurs "*" text = true /\ occurs "*" plain = false.
Proof.
  eexists.
  destruct (proj2 (proj2
    (start_fallback_is_plain [1001] "@channel" Fixtures.no_repr Fixtures.no_markdown Written
       (fresh_store "@channel" Unreadable) 7 "Ann" (JStr "@channel") _ eq_refl eq_refl))
    (Exn OtherException "Can't parse entities") eq_refl eq_refl)
    as (plain & Hlog & _ & _ & Hstar & _).
  exists plain. split; [exact Hlog |]. split; [vm_compute; reflexivity | exact Hstar].
Defined.

End CommandRuns.

(** ** Start of the process *)

Section StartupExtras.
Import Startup.

(** The statements hold whatever [int] accepts and whatever it raises. *)
Variable int : string -> result Z.

Lemma ids_of_app (l1 l2 : list string) :
  ids_of int (l1 ++ l2)
  = match ids_of int l1 with
    | Raise e => Raise e
    | Ok a => match ids_of int l2 with
              | Raise e => Raise e
              | Ok b => Ok (a ++ b)
              end
    end.
Proof.
  induction l1 as [|id l1 IH]; simpl.
  - by destruct (ids_of int l2).
  - case_decide; [done |].
    destruct (int _) as [n|e]; [| done].
    rewrite IH. destruct (ids_of int l1) as [a|e]; [| done].
    by destruct (ids_of int l2).
Qed.

(** A part that is empty or all white space gives no identifier. *)
Lemma admin_ids_blank (s : string) : PyStr.strip s = "" -> admin_ids int s = Ok [].
Proof.
  intros Hs. unfold admin_ids.
  assert (Commands.occurs "," s = false) as Hcomma.
  { rewrite <- (occurs_strip "," s), Hs; [done |]. by repeat constructor. }
  rewrite split_no_sep by done. simpl. by rewrite decide_True.
Qed.

(** X19.  The identifiers of a text with a comma in it are those of the part
    before the comma followed by those of the part after it; the exception
    of the first part that [int] rejects is the one raised.  A part that is
    empty or all white space gives no identifier, so doubled and trailing
    commas are harmless. *)
Theorem admin_ids_concat (a b : string) :
  admin_ids int (a +:+ String "," b)
  = match admin_ids int a with
    | Raise e => Raise e
    | Ok x => match admin_ids int b with
              | Raise e => Raise e
              | Ok y => Ok (x ++ y)
              end
    end /\
  (PyStr.strip a = "" -> admin_ids int (a +:+ String "," b) = admin_ids int b) /\
  (PyStr.strip b = "" -> admin_ids int (a +:+ String "," b) = admin_ids int a).
Proof.
  assert (admin_ids int (a +:+ String "," b)
          = match admin_ids int a with
            | Raise e => Raise e
            | Ok x => match admin_ids int b with
                      | Raise e => Raise e
                      | Ok y => Ok (x ++ y)
                      end
            end) as Happ.
  { unfold admin_ids. by rewrite split_app, ids_of_app. }
  split; [exact Happ |]. split.
  - intros Ha. rewrite Happ, (admin_ids_blank a Ha). by destruct (admin_ids int b).
  - intros Hb. rewrite Happ, (admin_ids_blank b Hb).
    destruct (admin_ids int a) as [x|e]; [| done]. by rewrite app_nil_r.
Qed.

(** X20.  The process starts exactly when [BOT_TOKEN] is set to a text
    that is not empty and [ADMIN_IDS] is set to a text that [int] accepts
    part by part and that gives at least one identifier; the settings are
    then that token, those identifiers and [REQUIRED_CHANNEL], empty when
    not set. *)
Theorem startup_settings (env : environment) (s : settings) :
  startup int env = Ok s <->
  exists token value ids,
    env_BOT_TOKEN env = Some token /\ token <> "" /\
    env_ADMIN_IDS env = Some value /\ admin_ids int value = Ok ids /\ ids <> [] /\
    s = Settings token ids (default "" (env_REQUIRED_CHANNEL env)).
Proof.
  unfold startup. split.
  - destruct (admin_ids int (default "" (env_ADMIN_IDS env))) as [ids|e] eqn:Hids; [| done].
    case_bool_decide as Htoken; [done |].
    case_bool_decide as Hempty; [done |]. cbn [orb].
    intros [= <-].
    destruct (env_BOT_TOKEN env) as [token|]; [| done].
    destruct (env_ADMIN_IDS env) as [value|].
    + by exists token, value, ids.
    + cbn [default] in Hids. rewrite admin_ids_blank in Hids by reflexivity.
      by injection Hids as <-.
  - intros (token & value & ids & Htoken & Hfilled & Hvalue & Hids & Hsome & ->).
    rewrite Htoken, Hvalue. change (default "" (Some value)) with value.
    change (default "" (Some token)) with token. rewrite Hids.
    rewrite bool_decide_eq_false_2 by done.
    by rewrite bool_decide_eq_false_2 by done.
Qed.

End StartupExtras.

Section StartupRuns.
Import Startup.

(** A part made of a no-break space alone is skipped. *)
Lemma admin_ids_concat_witness :
  PyStr.strip (PyStr.bytes [194; 160]%nat) = "" /\
  admin_ids AsciiInt.of_str (PyStr.bytes [194; 160]%nat +:+ String "," "1001, 1002")
  = Ok [1001; 1002].
Proof.
  assert (PyStr.strip (PyStr.bytes [194; 160]%nat) = "") as Hblank
    by (vm_compute; reflexivity).
  split; [exact Hblank |].
  rewrite (proj1 (proj2 (admin_ids_concat AsciiInt.of_str (PyStr.bytes [194; 160]%nat)
                           "1001, 1002")) Hblank).
  vm_compute. reflexivity.
Defined.

Lemma startup_settings_witness :
  startup AsciiInt.of_str (Environment (Some "123:abc") (Some "1001, 1002,,") None)
  = Ok (Settings "123:abc" [1001; 1002] "").
Proof.
  apply (proj2 (startup_settings AsciiInt.of_str _ _)).
  exists "123:abc", "1001, 1002,,", [1001; 1002].
  split; [reflexivity |]. split; [discriminate |]. split; [reflexivity |].
  split; [vm_compute; reflexivity |]. split; [discriminate | reflexivity].
Defined.

End StartupRuns.

(** ** Progress reporter: the message, the clock and the bar *)

Section HookExtras.
Import Progress.
Context `{PyFloat} `{PyStr.PyMemory}.

Implicit Types (h : ProgressHook) (d : event) (t : Q) (api : result Z).

Local Open Scope Q_scope.

Lemma call_with_message h d t api (m : Z) :
  message_id h = Some m ->
  message_id (__call__ h d t api).1.1 = Some m /\
  user_id (__call__ h d t api).1.1 = user_id h /\
  Forall (fun a => exists text, a = EditMessageText (user_id h) m text)
    (__call__ h d t api).1.2.
Proof.
  intros Hm. unfold __call__. rewrite Hm.
  repeat case_decide; try destruct (Qlt_le_dec _ _); cbn [fst snd message_id user_id];
    (split; [done |]; split; [done |]); repeat constructor; by eexists.
Qed.

Lemma run_with_message h (ds : list delivery) (m : Z) :
  message_id h = Some m ->
  message_id (run h ds).1 = Some m /\
  Forall (fun e => exists text, e.2 = EditMessageText (user_id h) m text) (run h ds).2.
Proof.
  revert h. induction ds as [|x ds IH]; intros h Hm; [by split |].
  cbn [run].
  destruct (call_with_message h (dl_event x) (dl_time x) (dl_api x) m Hm)
    as (Hm' & Hu & Hacts).
  destruct (__call__ h (dl_event x) (dl_time x) (dl_api x)) as [[h' acts] fin].
  cbn [fst snd] in *. destruct (IH h' Hm') as [Hfinal Hlog].
  destruct (run h' ds) as [h'' log]. cbn [fst snd] in *. split; [done |].
  apply Forall_app. split.
  - rewrite Forall_forall in Hacts. apply Forall_forall.
    intros e (a & -> & Ha)%list_elem_of_fmap. by apply Hacts.
  - by rewrite <- Hu.
Qed.

Lemma call_without_message h d t api :
  message_id h = None ->
  user_id (__call__ h d t api).1.1 = user_id h /\
  ((__call__ h d t api).1.2 = [] /\ message_id (__call__ h d t api).1.1 = None \/
   exists text, (__call__ h d t api).1.2 = [SendMessage (user_id h) text]).
Proof.
  intros Hm. unfold __call__. rewrite Hm.
  repeat case_decide; try destruct (Qlt_le_dec _ _); cbn [fst snd message_id user_id];
    (split; [done |]); try (by left); right; by eexists.
Qed.

(** X21.  A hook keeps to one status message.  Once a message is recorded,
    every later call it makes, for any events, is an edit of that message
    for its user, and the record never changes.  Before that, every call is
    a [send_message] to its user: the log of a run from a hook without a
    message is a row of sends followed by edits of one message. *)
Theorem hook_one_status_message h (ds : list delivery) :
  (forall m, message_id h = Some m ->
     message_id (run h ds).1 = Some m /\
     Forall (fun e => exists text, e.2 = EditMessageText (user_id h) m text) (run h ds).2) /\
  (message_id h = None ->
   exists sends edits,
     (run h ds).2 = sends ++ edits /\
     Forall (fun e => exists text, e.2 = SendMessage (user_id h) text) sends /\
     (edits = [] \/
      exists m, message_id (run h ds).1 = Some m /\
        Forall (fun e => exists text, e.2 = EditMessageText (user_id h) m text) edits)).
Proof.
  split; [intros m; apply run_with_message |].
  revert h. induction ds as [|x ds IH]; intros h Hm.
  { exists [], []. repeat split; try done. by left. }
  cbn [run].
  destruct (call_without_message h (dl_event x) (dl_time x) (dl_api x) Hm)
    as (Hu & Hcall).
  destruct (__call__ h (dl_event x) (dl_time x) (dl_api x)) as [[h' acts] fin].
  cbn [fst snd] in *.
  destruct (message_id h') as [m|] eqn:Hm'.
  - destruct Hcall as [[_ Hnone] | [text ->]]; [done |].
    destruct (run_with_message h' ds m Hm') as [Hfinal Hlog].
    destruct (run h' ds) as [h'' log]. cbn [fst snd map] in *.
    exists [(dl_time x, SendMessage (user_id h) text)], log.
    split; [done |]. split; [repeat constructor; by eexists |].
    right. exists m. split; [done |]. by rewrite <- Hu.
  - destruct (IH h' Hm') as (sends & edits & Hlog & Hsends & Hedits).
    destruct (run h' ds) as [h'' log]. cbn [fst snd] in *. subst log.
    exists (map (pair (dl_time x)) acts ++ sends), edits.
    split; [by rewrite app_assoc |]. split.
    + apply Forall_app. split; [| by rewrite <- Hu].
      destruct Hcall as [[-> _] | [text ->]]; repeat constructor. by eexists.
    + destruct Hedits as [-> | (m & Hfinal & Hall)]; [by left |].
      right. exists m. split; [done |]. by rewrite <- Hu.
Qed.

Lemma call_clock h d t api :
  user_id (__call__ h d t api).1.1 = user_id h /\
  last_update h <= last_update (__call__ h d t api).1.1 /\
  (last_update (__call__ h d t api).1.1 = last_update h \/
   last_update (__call__ h d t api).1.1 = t).
Proof.
  unfold __call__.
  destruct (message_id h); repeat case_decide; try destruct (Qlt_le_dec _ _);
    cbn [fst snd last_update user_id]; (split; [done |]); split;
    try lra; auto.
Qed.

(** X22.  The clock of the rate limit only moves forward: over any run,
    whatever times the events carry, [last_update] never decreases, it is
    either left as it was or set to the time of one of the events, and the
    hook stays with its user. *)
Theorem run_clock_monotone h (ds : list delivery) :
  user_id (run h ds).1 = user_id h /\
  last_update h <= last_update (run h ds).1 /\
  (last_update (run h ds).1 = last_update h \/
   exists x, x ∈ ds /\ last_update (run h ds).1 = dl_time x).
Proof.
  revert h. induction ds as [|x ds IH]; intros h.
  { cbn [run fst]. split; [done |]. split; [lra | by left]. }
  cbn [run].
  destruct (call_clock h (dl_event x) (dl_time x) (dl_api x)) as (Hu & Hle & Hset).
  destruct (__call__ h (dl_event x) (dl_time x) (dl_api x)) as [[h' acts] fin].
  cbn [fst snd] in *. destruct (IH h') as (Hu' & Hle' & Hset').
  destruct (run h' ds) as [h'' log]. cbn [fst snd] in *.
  split; [congruence |]. split; [lra |].
  destruct Hset' as [Hsame | (y & Hy & Htime)].
  - destruct Hset as [Hkeep | Hnow].
    + left. congruence.
    + right. exists x. split; [by constructor | congruence].
  - right. exists y. split; [by constructor | done].
Qed.

(** X23.  An event that is not [downloading] leaves the hook as it is; it
    makes a call only when it is [finished] and a message with a non-zero
    identifier is recorded, and that call edits the message to the fixed
    text, at any time, the rate limit notwithstanding. *)
Theorem other_events_keep_state h d t api :
  status d <> "downloading" ->
  (__call__ h d t api).1.1 = h /\
  ((__call__ h d t api).1.2 = [] \/
   status d = "finished" /\
   exists m, message_id h = Some m /\ m <> 0%Z /\
     (__call__ h d t api).1.2
     = [EditMessageText (user_id h) m "âœ… Download complete! Processing file..."]).
Proof.
  intros Hd. unfold __call__. rewrite decide_False by done.
  case_decide as Hfin; [| by split; [| left]].
  destruct (message_id h) as [m|]; [| by split; [| left]].
  case_decide as Hzero; [by split; [| left] |].
  split; [done |]. right. split; [done |]. by exists m.
Qed.

(** X24.  The bar is drawn from the count [n = int(float(percent) // 5)],
    the percent sign taken out of the string first: when both repetitions
    can be built, the text shows [n] filled blocks followed by [20 - n] empty
    ones, a count below one drawing no block.  So the bar has twenty
    segments for a count from 0 to 20, [n] filled segments and no empty one
    for a count above 20, and [20 - n] empty segments and no filled one for a
    count below 0.  When a repetition cannot be built, the text is the plain
    display without a bar. *)
Theorem bar_segments (percent speed eta : string) (x q : pyfloat) (n : Z) :
  float_of_str (PyStr.replace "%" "" percent) = Some x ->
  floordiv x 5 = Some q ->
  int_of_float q = Some n ->
  (PyStr.fits "â–ˆ" n = true -> PyStr.fits "â–‘" (20 - n) = true ->
   exists filled empty : nat,
     progress_text percent speed eta
     = "ðŸ“¥ Downloading: ["
       +:+ (PyStr.repeat "â–ˆ" filled +:+ PyStr.repeat "â–‘" empty)
       +:+ "] " +:+ percent +:+ PyStr.nl
       +:+ "âš¡ Speed: " +:+ speed +:+ PyStr.nl +:+ "â± ETA: " +:+ eta /\
     ((0 <= n <= 20)%Z -> Z.of_nat filled = n /\ (filled + empty = 20)%nat) /\
     ((20 < n)%Z -> Z.of_nat filled = n /\ empty = 0%nat) /\
     ((n < 0)%Z -> filled = 0%nat /\ Z.of_nat empty = (20 - n)%Z)) /\
  (PyStr.fits "â–ˆ" n = false \/ PyStr.fits "â–‘" (20 - n) = false ->
   progress_text percent speed eta
   = "ðŸ“¥ Downloading..." +:+ PyStr.nl +:+ "ðŸ“Š Progress: " +:+ percent +:+ PyStr.nl
     +:+ "âš¡ Speed: " +:+ speed +:+ PyStr.nl +:+ "â± ETA: " +:+ eta).
Proof.
  intros Hx Hq Hn. unfold progress_text, bar_text, PyStr.mul.
  rewrite Hx. cbn. rewrite Hq. cbn. rewrite Hn. cbn. split.
  - intros -> ->. cbn. exists (Z.to_nat n), (Z.to_nat (20 - n)).
    split; [reflexivity |]. lia.
  - intros [Hno|Hno].
    + by rewrite Hno.
    + destruct (PyStr.fits _ n); cbn; [by rewrite Hno | done].
Qed.

End HookExtras.

Section HookExtrasRuns.
Import Progress.

Lemma other_events_keep_state_witness :
  status Fixtures.finished <> "downloading" /\
  (__call__ Samples.shown Fixtures.finished 10.5 Samples.sent).1.1 = Samples.shown.
Proof.
  assert (status Fixtures.finished <> "downloading") as Hd by discriminate.
  split; [exact Hd |].
  exact (proj1 (other_events_keep_state Samples.shown Fixtures.finished 10.5
                  Samples.sent Hd)).
Defined.

Lemma bar_segments_witness :
  float_of_str (PyStr.replace "%" "" " 50.0%") = Some (DecimalFloat.Finite 50) /\
  floordiv (DecimalFloat.Finite 50) 5 = Some (DecimalFloat.Finite 10) /\
  int_of_float (DecimalFloat.Finite 10) = Some 10%Z /\
  exists filled empty : nat,
    render Samples.half
    = "ðŸ“¥ Downloading: ["
      +:+ (PyStr.repeat "â–ˆ" filled +:+ PyStr.repeat "â–‘" empty)
      +:+ "] " +:+ " 50.0%" +:+ PyStr.nl
      +:+ "âš¡ Speed: " +:+ "1.00MiB/s" +:+ PyStr.nl +:+ "â± ETA: " +:+ "00:10" /\
    (filled + empty = 20)%nat.
Proof.
  assert (float_of_str (PyStr.replace "%" "" " 50.0%") = Some (DecimalFloat.Finite 50))
    as Hx by (vm_compute; reflexivity).
  assert (floordiv (DecimalFloat.Finite 50) 5 = Some (DecimalFloat.Finite 10))
    as Hq by (vm_compute; reflexivity).
  assert (int_of_float (DecimalFloat.Finite 10) = Some 10%Z)
    as Hn by (vm_compute; reflexivity).
  split; [exact Hx |]. split; [exact Hq |]. split; [exact Hn |].
  assert (PyStr.fits "â–ˆ" 10 = true) as Hfilled by reflexivity.
  assert (PyStr.fits "â–‘" (20 - 10) = true) as Hempty by reflexivity.
  destruct (proj1 (bar_segments " 50.0%" "1.00MiB/s" "00:10" _ _ _ Hx Hq Hn)
              Hfilled Hempty) as (filled & empty & Htext & Hrange & _).
  exists filled, empty. split; [exact Htext |].
  apply Hrange. lia.
Defined.

End HookExtrasRuns.
